(** * Image-analysis workflow ([function_app.py]): a shallow embedding

    The Python module is a set of Azure Durable Functions: a generator
    orchestrator that fans out to four analyzer activities, joins them,
    builds a report and stores it, plus an HTTP query endpoint.

    Python values are embedded as a small JSON-like datatype, exceptions
    as an error monad over [sum], binary64 numbers as Rocq's primitive
    floats, and the external collaborators (blob storage, Pillow, the
    table service, [json]) as the fields of a [World] record. *)

From Stdlib Require Import ZArith String Ascii List Bool Lia Floats.
From Stdlib Require Import Permutation Sorted DecimalString HexadecimalString.
Import ListNotations.

Set Warnings "-inexact-float,-register-all".
Open Scope string_scope.
Open Scope list_scope.
Open Scope Z_scope.

(* ================================================================= *)
(** ** Python values, exceptions and builtins *)

Module Py.

(** Exceptions derived from [Exception]; every [except Exception] clause
    of the program catches all of them. *)
Inductive exn : Type :=
| KeyError (key : string)
| KeyError_repr (repr_key : string)  (* the key is not a string *)
| IndexError (msg : string)
| TypeError (msg : string)
| ValueError (msg : string)
| AttributeError (msg : string)
| ZeroDivisionError (msg : string)
| OverflowError (msg : string)
| LibraryError (cls msg : string).  (* raised inside azure-sdk, Pillow, json *)

(** [str(e)] *)
Definition str_exn (e : exn) : string :=
  match e with
  | KeyError k => "'" ++ k ++ "'"
  | KeyError_repr k => k
  | IndexError m | TypeError m | ValueError m | AttributeError m
  | ZeroDivisionError m | OverflowError m => m
  | LibraryError _ m => m
  end.

Definition result (A : Type) : Type := (exn + A)%type.
Definition ret {A} (a : A) : result A := inr a.
Definition raise {A} (e : exn) : result A := inl e.
Definition bind {A B} (m : result A) (k : A -> result B) : result B :=
  match m with
  | inl e => inl e
  | inr a => k a
  end.

Declare Scope py_scope.
Delimit Scope py_scope with py.
Notation "x <- m ;; k" := (bind m (fun x => k))
  (at level 61, m at next level, right associativity) : py_scope.
Open Scope py_scope.

(** [try: body  except Exception as e: handler e] *)
Definition try_except {A} (body : result A) (handler : exn -> A) : A :=
  match body with
  | inl e => handler e
  | inr a => a
  end.

Fixpoint mapM {A B} (f : A -> result B) (l : list A) : result (list B) :=
  match l with
  | [] => ret []
  | a :: l' => b <- f a ;; bs <- mapM f l' ;; ret (b :: bs)
  end.

(** JSON-shaped Python values.  A [dict] keeps its insertion order. *)
Inductive value : Type :=
| VNone
| VBool (b : bool)
| VInt (n : Z)
| VFloat (f : float)
| VStr (s : string)
| VList (l : list value)
| VDict (d : list (string * value)).

Fixpoint lookup {A} (k : string) (d : list (string * A)) : option A :=
  match d with
  | [] => None
  | (k', v) :: d' => if String.eqb k' k then Some v else lookup k d'
  end.

Definition keys {A} (d : list (string * A)) : list string := map fst d.

(** [bool(v)] *)
Definition truthy (v : value) : bool :=
  match v with
  | VNone => false
  | VBool b => b
  | VInt n => negb (n =? 0)
  | VFloat f => negb (PrimFloat.eqb f 0)
  | VStr s => negb (String.eqb s "")
  | VList l => match l with [] => false | _ => true end
  | VDict d => match d with [] => false | _ => true end
  end.

(** [v[key]] with a string key *)
Definition getitem (v : value) (key : string) : result value :=
  match v with
  | VDict d =>
      match lookup key d with
      | Some x => ret x
      | None => raise (KeyError key)
      end
  | VList _ => raise (TypeError "list indices must be integers or slices, not str")
  | VStr _ => raise (TypeError "string indices must be integers, not 'str'")
  | _ => raise (TypeError "object is not subscriptable")
  end.

(** [v[i]] with a literal non-negative index *)
Definition index (v : value) (i : nat) : result value :=
  match v with
  | VList l =>
      match nth_error l i with
      | Some x => ret x
      | None => raise (IndexError "list index out of range")
      end
  | VStr s =>
      match String.get i s with
      | Some c => ret (VStr (String c ""))
      | None => raise (IndexError "string index out of range")
      end
  | VDict d =>
      raise (KeyError_repr (DecimalString.NilZero.string_of_int (Z.to_int (Z.of_nat i))))
  | _ => raise (TypeError "object is not subscriptable")
  end.

(** [v.get(key, default)] *)
Definition get (v : value) (key : string) (default : value) : result value :=
  match v with
  | VDict d =>
      match lookup key d with
      | Some x => ret x
      | None => ret default
      end
  | _ => raise (AttributeError "object has no attribute 'get'")
  end.

(** [str(n)] for an [int] *)
Definition str_int (n : Z) : string :=
  DecimalString.NilZero.string_of_int (Z.to_int n).

(** [format(n, "02x")] *)
Definition hex_digits (n : Z) : string :=
  HexadecimalString.NilZero.string_of_uint (N.to_hex_uint (Z.to_N n)).

Definition format_02x (n : Z) : string :=
  if n <? 0 then "-" ++ hex_digits (- n)
  else if n <? 16 then "0" ++ hex_digits n
  else hex_digits n.

(** *** Strings *)

Definition slash : ascii := "/"%char.

(** ["/" in s] *)
Fixpoint contains_slash (s : string) : bool :=
  match s with
  | EmptyString => false
  | String c s' => if Ascii.eqb c slash then true else contains_slash s'
  end.

(** [type(v).__name__] *)
Definition type_name (v : value) : string :=
  match v with
  | VNone => "NoneType"
  | VBool _ => "bool"
  | VInt _ => "int"
  | VFloat _ => "float"
  | VStr _ => "str"
  | VList _ => "list"
  | VDict _ => "dict"
  end.

(** ["/" in v]: substring test on a string, membership in a list, key
    test on a dict; other values are not iterable. *)
Definition slash_in (v : value) : result bool :=
  match v with
  | VStr s => ret (contains_slash s)
  | VList l =>
      ret (existsb (fun x => match x with
                             | VStr s => String.eqb s "/"
                             | _ => false
                             end) l)
  | VDict d => ret (existsb (fun kv => String.eqb (fst kv) "/") d)
  | _ => raise (TypeError ("argument of type '" ++ type_name v ++ "' is not iterable"))
  end.

(** [s.split("/")]: always at least one piece. *)
Fixpoint split_slash (s : string) : list string :=
  match s with
  | EmptyString => [""]
  | String c s' =>
      if Ascii.eqb c slash then "" :: split_slash s'
      else
        match split_slash s' with
        | [] => [String c ""]
        | p :: ps => String c p :: ps
        end
  end.

(** [s.split("/", 1)] when ["/" in s]: the text before and after the
    first separator. *)
Fixpoint split_slash_once (s : string) : string * string :=
  match s with
  | EmptyString => ("", "")
  | String c s' =>
      if Ascii.eqb c slash then ("", s')
      else let '(a, b) := split_slash_once s' in (String c a, b)
  end.

(** [l[-1]] on a list of strings ([IndexError] when empty) *)
Definition last_piece (l : list string) : result string :=
  match rev l with
  | [] => raise (IndexError "list index out of range")
  | p :: _ => ret p
  end.

(** [int(s)] on ASCII text: optional surrounding whitespace, an optional
    sign, then decimal digits that single underscores may separate.
    Strings are byte strings here: decimal digits and spaces outside
    ASCII, which CPython also accepts, are not recognised. *)
Definition is_space (c : ascii) : bool :=
  let n := nat_of_ascii c in
  orb (Nat.eqb n 32)
      (orb (andb (Nat.leb 9 n) (Nat.leb n 13)) (andb (Nat.leb 28 n) (Nat.leb n 31))).

Definition digit_of (c : ascii) : option Z :=
  let n := nat_of_ascii c in
  if andb (Nat.leb 48 n) (Nat.leb n 57) then Some (Z.of_nat (n - 48)%nat) else None.

Fixpoint lstrip (s : string) : string :=
  match s with
  | String c s' => if is_space c then lstrip s' else s
  | EmptyString => s
  end.

Fixpoint string_rev_onto (s acc : string) : string :=
  match s with
  | EmptyString => acc
  | String c s' => string_rev_onto s' (String c acc)
  end.

Definition strip (s : string) : string :=
  string_rev_onto (lstrip (string_rev_onto (lstrip s) "")) "".

(** [digits after_digit acc s]: [after_digit] tells whether the previous
    character was a digit (an underscore is accepted only there, and not
    at the end). *)
Fixpoint digits (after_digit : bool) (acc : Z) (s : string) : option Z :=
  match s with
  | EmptyString => if after_digit then Some acc else None
  | String c s' =>
      match digit_of c with
      | Some d => digits true (10 * acc + d) s'
      | None =>
          if andb after_digit (Ascii.eqb c "_"%char)
          then match s' with
               | EmptyString => None
               | String c' _ =>
                   match digit_of c' with
                   | Some _ => digits false acc s'
                   | None => None
                   end
               end
          else None
      end
  end.

Fixpoint digit_count (s : string) : Z :=
  match s with
  | EmptyString => 0
  | String c s' =>
      (match digit_of c with Some _ => 1 | None => 0 end) + digit_count s'
  end.

(** A well-formed literal of more than 4300 digits is refused
    ([sys.get_int_max_str_digits()]). *)
Definition within_digit_limit (s : string) (n : Z) : result Z :=
  if 4300 <? digit_count s
  then raise (ValueError
                ("Exceeds the limit (4300 digits) for integer string conversion: value has "
                 ++ str_int (digit_count s)
                 ++ " digits; use sys.set_int_max_str_digits() to increase the limit"))
  else ret n.

Definition int_of_string (s : string) : result Z :=
  let bad := ValueError ("invalid literal for int() with base 10: '" ++ s ++ "'") in
  match strip s with
  | String "-"%char s' =>
      match digits false 0 s' with
      | Some n => within_digit_limit s' (- n)
      | None => raise bad
      end
  | String "+"%char s' =>
      match digits false 0 s' with
      | Some n => within_digit_limit s' n
      | None => raise bad
      end
  | s' =>
      match digits false 0 s' with
      | Some n => within_digit_limit s' n
      | None => raise bad
      end
  end.

(** *** Binary64 arithmetic *)

(** The binary64 number nearest to [a / b] (ties to even), [b <> 0].
    The quotient is computed with at least two guard bits and the
    position of the remainder, then rounded once. *)
Definition float_of_ratio (a b : Z) : float :=
  match a with
  | Z0 => PrimFloat.zero
  | _ =>
      let s := Z.max 0 (55 + Z.log2 (Z.abs b) - Z.log2 (Z.abs a)) in
      let '(q, r) := Z.div_eucl (Z.shiftl (Z.abs a) s) (Z.abs b) in
      SF2Prim (binary_round_aux prec emax (xorb (a <? 0) (b <? 0)) q (- s)
                 (new_location (Z.abs b) r))
  end.

(** [a / b] on two [int]s: the correctly rounded quotient. *)
Definition truediv (a b : Z) : result float :=
  if b =? 0 then raise (ZeroDivisionError "division by zero")
  else
    let q := float_of_ratio a b in
    if PrimFloat.is_infinity q
    then raise (OverflowError "integer division result too large for a float")
    else ret q.

(** [n / d] rounded to the nearest integer, ties to even, [d > 0]. *)
Definition round_half_even (n d : Z) : Z :=
  let q := n / d in
  let r := n mod d in
  match Z.compare (2 * r) d with
  | Lt => q
  | Gt => q + 1
  | Eq => if Z.even q then q else q + 1
  end.

(** The integer [k] such that the exact value of the finite float [x],
    rounded half-even to [ndigits] decimals, is [k / 10^ndigits]. *)
Definition decimal_digits (x : float) (ndigits : Z) : option Z :=
  match Prim2SF x with
  | S754_finite s m e =>
      let k := round_half_even (Zpos m * 10 ^ ndigits * 2 ^ (Z.max e 0))
                               (2 ^ (Z.max (- e) 0)) in
      Some (if s then - k else k)
  | S754_zero _ => Some 0
  | _ => None
  end.

(** [round(x, ndigits)] for a float [x] and [ndigits >= 0]: the exact
    value of [x] is rounded half-even to [ndigits] decimals and the
    decimal converted back to the nearest binary64 number. *)
Definition round (x : float) (ndigits : Z) : float :=
  match Prim2SF x with
  | S754_finite s _ _ =>
      match decimal_digits x ndigits with
      | Some 0 => if s then PrimFloat.neg_zero else PrimFloat.zero
      | Some k => float_of_ratio k (10 ^ ndigits)
      | None => x
      end
  | _ => x
  end.

(** *** [sorted(xs, key=..., reverse=True)]

    Python's sort is stable, also with [reverse=True]: elements with
    equal keys keep their original relative order. *)
Section SortDesc.
Context {A K : Type}.
Variable ltb : K -> K -> bool.
Variable key : A -> K.

Fixpoint insert_desc (x : A) (l : list A) : list A :=
  match l with
  | [] => [x]
  | y :: l' => if ltb (key x) (key y) then y :: insert_desc x l' else x :: l
  end.

Fixpoint sorted_desc (l : list A) : list A :=
  match l with
  | [] => []
  | x :: l' => insert_desc x (sorted_desc l')
  end.
End SortDesc.

(** [l[:n]] *)
Definition slice_to {A} (l : list A) (n : Z) : list A :=
  if n <? 0 then firstn (length l - Z.to_nat (- n))%nat l
  else firstn (Z.to_nat n) l.

End Py.

(* ================================================================= *)
(** ** The function app *)

Module FunctionApp.
Import Py.

Definition bytes : Type := list Byte.byte.
Definition pixel : Type := (Z * Z * Z)%type.

(** The collaborators the module calls but does not define: the process
    environment, Azure blob and table services, Pillow, [json], and
    CPython's [repr] for floats and containers.  [getdata] is only
    applied to an image in mode RGB, whose pixels are 3-tuples.
    [BlobService conn] is the client for a connection string, applied to
    a container and a blob name; [get_blob_other conn container blob] is
    the same download when [blob] is not a string. *)
Record World : Type := {
  environ : string -> option string;
  BlobService : string -> result (string -> string -> result bytes);
  get_blob_other : string -> string -> value -> result bytes;
  TableService : string -> result unit;
  Image : Type;
  Image_open : bytes -> result Image;
  mode : Image -> string;
  size : Image -> Z * Z;
  format : Image -> option string;
  convert : Image -> string -> result Image;
  resize : Image -> Z * Z -> result Image;
  getdata : Image -> list pixel;
  json_dumps : option Z -> value -> string;
  json_loads : string -> result value;
  repr : value -> string
}.

Definition TABLE_NAME : string := "ImageAnalysisResults".
Definition PARTITION_KEY : string := "ImageAnalysis".

(** [os.environ[name]] *)
Definition environ_getitem (W : World) (name : string) : result string :=
  match environ W name with
  | Some v => ret v
  | None => raise (KeyError name)
  end.

(** *** The result table

    Rows as [store_results] writes them: every column is text. *)
Record entity : Type := {
  PartitionKey : string;
  RowKey : string;
  FileName : string;
  BlobPath : string;
  AnalyzedAt : string;
  Summary : string;
  ColorAnalysis : string;
  ObjectAnalysis : string;
  TextAnalysis : string;
  MetadataAnalysis : string
}.

Definition Table : Type := list entity.

Definition same_row (pk rk : string) (e : entity) : bool :=
  andb (String.eqb (PartitionKey e) pk) (String.eqb (RowKey e) rk).

(** [table_client.get_entity(pk, rk)] *)
Definition get_entity (t : Table) (pk rk : string) : result entity :=
  match find (same_row pk rk) t with
  | Some e => ret e
  | None => raise (LibraryError "ResourceNotFoundError"
                     "The specified resource does not exist.")
  end.

(** [table_client.query_entities("PartitionKey eq '<pk>'")] *)
Definition query_entities (t : Table) (pk : string) : list entity :=
  filter (fun e => String.eqb (PartitionKey e) pk) t.

(** [table_client.upsert_entity(e)] *)
Fixpoint upsert_entity (e : entity) (t : Table) : Table :=
  match t with
  | [] => [e]
  | e' :: t' =>
      if same_row (PartitionKey e) (RowKey e) e' then e :: t'
      else e' :: upsert_entity e t'
  end.

(** Lines 20-24. *)
Definition get_table_client (W : World) : result unit :=
  connection_string <- environ_getitem W "ImageStorageConnection" ;;
  TableService W connection_string.

(** Lines 27-40. *)
Definition download_blob_bytes (W : World) (blob_name : value) : result bytes :=
  conn_str <- environ_getitem W "ImageStorageConnection" ;;
  service <- BlobService W conn_str ;;
  has_slash <- slash_in blob_name ;;
  match blob_name with
  | VStr name =>
      let '(container, blob) :=
        if has_slash then split_slash_once name
        else ("images", name) in
      service container blob
  | _ =>
      if has_slash
      then raise (AttributeError ("'" ++ type_name blob_name
                                  ++ "' object has no attribute 'split'"))
      else get_blob_other W conn_str "images" blob_name
  end.

(** *** Analyze colors (lines 88-130) *)

Definition pixel_eqb (p q : pixel) : bool :=
  let '(r1, g1, b1) := p in
  let '(r2, g2, b2) := q in
  andb (andb (r1 =? r2) (g1 =? g2)) (b1 =? b2).

(** [(r // 32 * 32, g // 32 * 32, b // 32 * 32)] *)
Definition bucket (p : pixel) : pixel :=
  let '(r, g, b) := p in (r / 32 * 32, g / 32 * 32, b / 32 * 32).

(** [color_counts[key] = color_counts.get(key, 0) + 1] on an
    insertion-ordered dict. *)
Fixpoint dict_incr (key : pixel) (d : list (pixel * Z)) : list (pixel * Z) :=
  match d with
  | [] => [(key, 0 + 1)]
  | (k, c) :: d' =>
      if pixel_eqb k key then (k, c + 1) :: d'
      else (k, c) :: dict_incr key d'
  end.

Definition color_counts (pixels : list pixel) : list (pixel * Z) :=
  fold_left (fun d p => dict_incr (bucket p) d) pixels [].

Definition sorted_colors (pixels : list pixel) : list (pixel * Z) :=
  sorted_desc Z.ltb snd (color_counts pixels).

(** [round(count / len(pixels) * 100, 1)] *)
Definition percentage (count n : Z) : result float :=
  q <- truediv count n ;;
  ret (round (q * 100)%float 1).

Definition color_entry (n : Z) (kc : pixel * Z) : result value :=
  let '((r, g, b), count) := kc in
  pct <- percentage count n ;;
  ret (VDict [("hex", VStr ("#" ++ format_02x r ++ format_02x g ++ format_02x b));
              ("rgb", VDict [("r", VInt r); ("g", VInt g); ("b", VInt b)]);
              ("percentage", VFloat pct)]).

(** [abs(r - g) < 30 and abs(g - b) < 30] *)
Definition neutral (p : pixel) : bool :=
  let '(r, g, b) := p in
  andb (Z.abs (r - g) <? 30) (Z.abs (g - b) <? 30).

Definition grayscale_pixels (pixels : list pixel) : Z :=
  Z.of_nat (List.length (filter neutral pixels)).

(** Lines 93-100: fetch, decode, normalise to RGB, downsample. *)
Definition sample_pixels (W : World) (inputData : value) : result (list pixel) :=
  blob_name <- getitem inputData "blob_name" ;;
  image_bytes <- download_blob_bytes W blob_name ;;
  image <- Image_open W image_bytes ;;
  image <- (if String.eqb (mode W image) "RGB" then ret image
            else convert W image "RGB") ;;
  small_image <- resize W image (50, 50) ;;
  ret (getdata W small_image).

(** Lines 102-126. *)
Definition color_statistics (pixels : list pixel) : result value :=
  let n := Z.of_nat (List.length pixels) in
  top_colors <- mapM (color_entry n) (firstn 5 (sorted_colors pixels)) ;;
  fraction <- truediv (grayscale_pixels pixels) n ;;
  let is_grayscale := PrimFloat.ltb 0.9 fraction in
  ret (VDict [("dominantColors", VList top_colors);
              ("isGrayscale", VBool is_grayscale);
              ("totalPixelsSampled", VInt n)]).

Definition analyze_colors_body (W : World) (inputData : value) : result value :=
  pixels <- sample_pixels W inputData ;;
  color_statistics pixels.

Definition analyze_colors (W : World) (inputData : value) : value :=
  try_except (analyze_colors_body W inputData)
    (fun e => VDict [("dominantColors", VList []);
                     ("isGrayscale", VBool false);
                     ("totalPixelsSampled", VInt 0);
                     ("error", VStr (str_exn e))]).

(** *** Analyze objects (lines 134-160) *)

Definition tag (name : string) (confidence : float) : value :=
  VDict [("name", VStr name); ("confidence", VFloat confidence)].

Definition mock_objects (width height : Z) : list value :=
  (if height <? width then [tag "landscape" 0.85]
   else if width <? height then [tag "portrait" 0.82]
   else [tag "square composition" 0.90])
  ++ (if 1000000 <? width * height then [tag "high-resolution scene" 0.78] else [])
  ++ [tag "digital image" 0.99].

(** Fetch and decode, as the object and metadata analyzers do. *)
Definition open_image (W : World) (inputData : value) : result (Image W) :=
  blob_name <- getitem inputData "blob_name" ;;
  image_bytes <- download_blob_bytes W blob_name ;;
  Image_open W image_bytes.

Definition analyze_objects_body (W : World) (inputData : value) : result value :=
  image <- open_image W inputData ;;
  let '(width, height) := size W image in
  let objs := mock_objects width height in
  ret (VDict [("objects", VList objs);
              ("objectCount", VInt (Z.of_nat (List.length objs)));
              ("note", VStr "Mock analysis")]).

Definition analyze_objects (W : World) (inputData : value) : value :=
  try_except (analyze_objects_body W inputData)
    (fun e => VDict [("objects", VList []);
                     ("objectCount", VInt 0);
                     ("error", VStr (str_exn e))]).

(** *** Analyze text (lines 164-167) *)

Definition analyze_text (inputData : value) : value :=
  VDict [("hasText", VBool false); ("extractedText", VStr "");
         ("confidence", VFloat 0.0); ("language", VStr "unknown");
         ("note", VStr "Mock OCR")].

(** *** Analyze metadata (lines 171-194) *)

(** [image.format or "Unknown"] *)
Definition format_or_unknown (f : option string) : string :=
  match f with
  | Some s => if String.eqb s "" then "Unknown" else s
  | None => "Unknown"
  end.

Definition analyze_metadata_body (W : World) (inputData : value) : result value :=
  image <- open_image W inputData ;;
  let '(width, height) := size W image in
  let total_pixels := width * height in
  mp <- truediv total_pixels 1000000 ;;
  size_kb <- get inputData "blob_size_kb" VNone ;;
  ret (VDict [("width", VInt width);
              ("height", VInt height);
              ("format", VStr (format_or_unknown (format W image)));
              ("mode", VStr (mode W image));
              ("totalPixels", VInt total_pixels);
              ("megapixels", VFloat (round mp 2));
              ("sizeKB", size_kb)]).

Definition analyze_metadata (W : World) (inputData : value) : value :=
  try_except (analyze_metadata_body W inputData)
    (fun e => VDict [("width", VInt 0); ("height", VInt 0);
                     ("format", VStr "Unknown");
                     ("error", VStr (str_exn e))]).

(** *** Generate report (lines 198-227) *)

(** [f"{v}"]: [str(v)]. *)
Definition format_value (W : World) (v : value) : string :=
  match v with
  | VInt n => str_int n
  | VStr s => s
  | VNone => "None"
  | VBool true => "True"
  | VBool false => "False"
  | _ => repr W v
  end.

(** [blob_name.split("/")[-1] if "/" in blob_name else blob_name] *)
Definition file_name_of (blob_name : value) : result value :=
  has_slash <- slash_in blob_name ;;
  if has_slash then
    match blob_name with
    | VStr s => p <- last_piece (split_slash s) ;; ret (VStr p)
    | _ => raise (AttributeError ("'" ++ type_name blob_name
                                  ++ "' object has no attribute 'split'"))
    end
  else ret blob_name.

(** [colors["dominantColors"][0]["hex"] if colors.get("dominantColors")
    else "N/A"] *)
Definition dominant_color (reportData : value) : result value :=
  colors <- getitem reportData "colors" ;;
  cond <- get colors "dominantColors" VNone ;;
  if truthy cond then
    colors <- getitem reportData "colors" ;;
    dominant <- getitem colors "dominantColors" ;;
    first <- index dominant 0 ;;
    getitem first "hex"
  else ret (VStr "N/A").

Definition report_summary (W : World) (reportData : value) : result value :=
  metadata <- getitem reportData "metadata" ;;
  width <- get metadata "width" (VInt 0) ;;
  metadata <- getitem reportData "metadata" ;;
  height <- get metadata "height" (VInt 0) ;;
  metadata <- getitem reportData "metadata" ;;
  fmt <- get metadata "format" (VStr "Unknown") ;;
  dominant <- dominant_color reportData ;;
  objects <- getitem reportData "objects" ;;
  count <- get objects "objectCount" (VInt 0) ;;
  text <- getitem reportData "text" ;;
  has_text <- get text "hasText" (VBool false) ;;
  colors <- getitem reportData "colors" ;;
  is_grayscale <- get colors "isGrayscale" (VBool false) ;;
  ret (VDict [("imageSize", VStr (format_value W width ++ "x" ++ format_value W height));
              ("format", fmt);
              ("dominantColor", dominant);
              ("objectsDetected", count);
              ("hasText", has_text);
              ("isGrayscale", is_grayscale)]).

Definition report_analyses (reportData : value) : result value :=
  colors <- getitem reportData "colors" ;;
  objects <- getitem reportData "objects" ;;
  text <- getitem reportData "text" ;;
  metadata <- getitem reportData "metadata" ;;
  ret (VDict [("colors", colors); ("objects", objects);
              ("text", text); ("metadata", metadata)]).

(** [uuid4] and [utcnow] are the text of [str(uuid.uuid4())] and of
    [datetime.utcnow().isoformat()] drawn for this call. *)
Definition generate_report (W : World) (uuid4 utcnow : string)
    (reportData : value) : result value :=
  blob_name <- getitem reportData "blob_name" ;;
  filename <- file_name_of blob_name ;;
  analyses <- report_analyses reportData ;;
  summary <- report_summary W reportData ;;
  ret (VDict [("id", VStr uuid4);
              ("fileName", filename);
              ("blobPath", blob_name);
              ("analyzedAt", VStr utcnow);
              ("analyses", analyses);
              ("summary", summary)]).

(** *** Store results (lines 231-253) *)

(** A text column of the table.  The table model holds text only: the
    source hands [report["id"]], [report["fileName"]], [report["blobPath"]]
    and [report["analyzedAt"]] to the table client unchecked, and a report
    in which one of them is not a string is outside this model. *)
Definition column (v : value) : result string :=
  match v with
  | VStr s => ret s
  | _ => raise (TypeError "column value is not a string")
  end.

Definition store_results (W : World) (report : value) (t : Table)
    : result (value * Table) :=
  _ <- getitem report "fileName" ;;
  _ <- get_table_client W ;;
  id <- getitem report "id" ;;
  row_key <- column id ;;
  file_name <- getitem report "fileName" ;;
  file_name_c <- column file_name ;;
  blob_path <- getitem report "blobPath" ;;
  blob_path_c <- column blob_path ;;
  analyzed_at <- getitem report "analyzedAt" ;;
  analyzed_at_c <- column analyzed_at ;;
  summary <- getitem report "summary" ;;
  analyses <- getitem report "analyses" ;;
  colors <- getitem analyses "colors" ;;
  analyses <- getitem report "analyses" ;;
  objects <- getitem analyses "objects" ;;
  analyses <- getitem report "analyses" ;;
  text <- getitem analyses "text" ;;
  analyses <- getitem report "analyses" ;;
  metadata <- getitem analyses "metadata" ;;
  let e := {| PartitionKey := PARTITION_KEY;
              RowKey := row_key;
              FileName := file_name_c;
              BlobPath := blob_path_c;
              AnalyzedAt := analyzed_at_c;
              Summary := json_dumps W None summary;
              ColorAnalysis := json_dumps W None colors;
              ObjectAnalysis := json_dumps W None objects;
              TextAnalysis := json_dumps W None text;
              MetadataAnalysis := json_dumps W None metadata |} in
  ret (VDict [("id", id); ("fileName", file_name);
              ("status", VStr "stored"); ("analyzedAt", analyzed_at)],
       upsert_entity e t).

(** *** HTTP get results (lines 257-303) *)

Record HttpRequest : Type := {
  route_params : list (string * string);
  params : list (string * string)
}.

Record HttpResponse : Type := {
  body : string;
  mimetype : string;
  status_code : Z
}.

(** The full report of one row (lines 267-279). *)
Definition result_of_entity (W : World) (e : entity) : result value :=
  summary <- json_loads W (Summary e) ;;
  colors <- json_loads W (ColorAnalysis e) ;;
  objects <- json_loads W (ObjectAnalysis e) ;;
  text <- json_loads W (TextAnalysis e) ;;
  metadata <- json_loads W (MetadataAnalysis e) ;;
  ret (VDict [("id", VStr (RowKey e));
              ("fileName", VStr (FileName e));
              ("blobPath", VStr (BlobPath e));
              ("analyzedAt", VStr (AnalyzedAt e));
              ("summary", summary);
              ("analyses", VDict [("colors", colors); ("objects", objects);
                                  ("text", text); ("metadata", metadata)])]).

(** One element of the list comprehension (lines 285-290). *)
Definition listing_of_entity (W : World) (e : entity) : result value :=
  summary <- json_loads W (Summary e) ;;
  ret (VDict [("id", VStr (RowKey e));
              ("fileName", VStr (FileName e));
              ("analyzedAt", VStr (AnalyzedAt e));
              ("summary", summary)]).

(** [lambda x: x["analyzedAt"]] on the dicts built above. *)
Definition analyzedAt_key (x : value) : string :=
  match getitem x "analyzedAt" with
  | inr (VStr s) => s
  | _ => ""
  end.

(** [int(req.params.get("limit", "10"))] *)
Definition requested_limit (req : HttpRequest) : result Z :=
  int_of_string (match lookup "limit" (params req) with
                 | Some s => s
                 | None => "10"
                 end).

(** Lines 283-293: the rows, newest first, cut at [limit]. *)
Definition list_results (W : World) (t : Table) (limit : Z) : result (list value) :=
  let entities := query_entities t PARTITION_KEY in
  results <- mapM (listing_of_entity W) entities ;;
  let results := sorted_desc String.ltb analyzedAt_key results in
  ret (slice_to results limit).

Definition get_results_body (W : World) (t : Table) (req : HttpRequest)
    : result HttpResponse :=
  _ <- get_table_client W ;;
  let result_id := lookup "id" (route_params req) in
  match result_id with
  | Some (String c rest as id) =>
      e <- get_entity t PARTITION_KEY id ;;
      r <- result_of_entity W e ;;
      ret {| body := json_dumps W (Some 2) r;
             mimetype := "application/json";
             status_code := 200 |}
  | _ =>
      limit <- requested_limit req ;;
      results <- list_results W t limit ;;
      ret {| body := json_dumps W (Some 2)
                       (VDict [("count", VInt (Z.of_nat (List.length results)));
                               ("results", VList results)]);
             mimetype := "application/json";
             status_code := 200 |}
  end.

Definition get_results (W : World) (t : Table) (req : HttpRequest) : HttpResponse :=
  try_except (get_results_body W t req)
    (fun e => {| body := json_dumps W None (VDict [("error", VStr (str_exn e))]);
                 mimetype := "application/json";
                 status_code := 500 |}).

(** *** Blob trigger and orchestrator (lines 44-84) *)

Record Job : Type := {
  blob_name : string;
  blob_size_kb : float
}.

(** The [client_input] dict of line 54. *)
Definition client_input (j : Job) : value :=
  VDict [("blob_name", VStr (blob_name j));
         ("blob_size_kb", VFloat (blob_size_kb j))].

(** Lines 47-48: the job of a new blob of [length] bytes. *)
Definition blob_trigger (name : string) (length : Z) : result Job :=
  kb <- truediv length 1024 ;;
  ret {| blob_name := name; blob_size_kb := round kb 2 |}.

(** What an orchestrator generator yields to the durable runtime. *)
Inductive Task : Type :=
| call_activity (name : string) (input : value)
| task_all (tasks : list (string * value)).

(** A generator: it yields a task and is resumed with the task's value
    or with the exception thrown into it, returns, or raises. *)
Inductive Generator : Type :=
| Yield (t : Task) (resume : result value -> Generator)
| Return (v : value)
| Raise (e : exn).

(** [x = yield t] outside any [try]: an exception thrown into the
    generator at the yield leaves it. *)
Definition yield_ (t : Task) (k : value -> Generator) : Generator :=
  Yield t (fun sent => match sent with
                       | inl e => Raise e
                       | inr v => k v
                       end).

Definition analysis_tasks (input_data : value) : list (string * value) :=
  [("analyze_colors", input_data);
   ("analyze_objects", input_data);
   ("analyze_text", input_data);
   ("analyze_metadata", input_data)].

(** Lines 74-80. *)
Definition report_input (input_data results : value) : result value :=
  name <- getitem input_data "blob_name" ;;
  colors <- index results 0 ;;
  objects <- index results 1 ;;
  text <- index results 2 ;;
  metadata <- index results 3 ;;
  ret (VDict [("blob_name", name); ("colors", colors); ("objects", objects);
              ("text", text); ("metadata", metadata)]).

Definition image_analyzer_orchestrator (input_data : value) : Generator :=
  yield_ (task_all (analysis_tasks input_data)) (fun results =>
    match report_input input_data results with
    | inl e => Raise e
    | inr report_data =>
        yield_ (call_activity "generate_report" report_data) (fun report =>
          yield_ (call_activity "store_results" report) (fun record =>
            Return record))
    end).

(** *** The durable runtime driving a generator

    Activities run against a state [S] (here the result table).  The
    schedule lists the children of a [task_all] in the order in which
    they have completed so far.  The compound task fails as soon as one
    child has failed, without waiting for the others; it succeeds, with
    the list of the children's values in task order, only when none of
    its children is pending; until then the orchestration waits.  The
    exception thrown into the generator is identified with the one the
    activity raised (the host's rewording of its text is not
    modelled). *)
Inductive event : Type :=
| Scheduled (name : string) (input : value)
| Completed (name : string) (outcome : result value).

Inductive outcome : Type :=
| Succeeded (v : value)
| Failed (e : exn)
| Pending.

Section Runtime.
Context {S : Type}.
Variable activity : string -> value -> S -> result value * S.

Fixpoint complete (tasks : list (string * value)) (order : list nat) (s : S)
    : list (nat * string * result value) * S :=
  match order with
  | [] => ([], s)
  | i :: order' =>
      match nth_error tasks i with
      | Some (name, input) =>
          match activity name input s with
          | (inl e, s1) => ([(i, name, inl e)], s1)
          | (inr v, s1) =>
              let '(done, s2) := complete tasks order' s1 in
              ((i, name, inr v) :: done, s2)
          end
      | None => complete tasks order' s
      end
  end.

Definition completed (d : nat * string * result value) : event :=
  let '(_, name, r) := d in Completed name r.

Definition outcome_of (done : list (nat * string * result value)) (i : nat)
    : option (result value) :=
  option_map snd (find (fun d => Nat.eqb (fst (fst d)) i) done).

Definition first_error (done : list (nat * string * result value)) : option exn :=
  match find (fun d => match snd d with inl _ => true | inr _ => false end) done with
  | Some (_, inl e) => Some e
  | _ => None
  end.

Definition value_of (done : list (nat * string * result value)) (i : nat) : value :=
  match outcome_of done i with
  | Some (inr v) => v
  | _ => VNone
  end.

(** The barrier: the first failure at once, the values when every
    child has completed, [None] while a child is pending. *)
Definition join (n : nat) (done : list (nat * string * result value))
    : option (result value) :=
  match first_error done with
  | Some e => Some (inl e)
  | None =>
      if forallb (fun i => match outcome_of done i with
                           | Some _ => true
                           | None => false
                           end) (seq 0 n)
      then Some (inr (VList (map (value_of done) (seq 0 n))))
      else None
  end.

Fixpoint run (order : list nat) (g : Generator) (s : S)
    : outcome * list event * S :=
  match g with
  | Return v => (Succeeded v, [], s)
  | Raise e => (Failed e, [], s)
  | Yield (call_activity name input) resume =>
      let '(r, s1) := activity name input s in
      let '(o, trace, s2) := run order (resume r) s1 in
      (o, Scheduled name input :: Completed name r :: trace, s2)
  | Yield (task_all tasks) resume =>
      let scheduled := map (fun t => Scheduled (fst t) (snd t)) tasks in
      let '(done, s1) := complete tasks order s in
      match join (List.length tasks) done with
      | None => (Pending, scheduled ++ map completed done, s1)
      | Some r =>
          let '(o, trace, s2) := run order (resume r) s1 in
          (o, scheduled ++ map completed done ++ trace, s2)
      end
  end.
End Runtime.

(** The activities registered with the app, by name. *)
Definition activities (W : World) (uuid4 utcnow : string)
    (name : string) (input : value) (t : Table) : result value * Table :=
  if String.eqb name "analyze_colors" then (ret (analyze_colors W input), t)
  else if String.eqb name "analyze_objects" then (ret (analyze_objects W input), t)
  else if String.eqb name "analyze_text" then (ret (analyze_text input), t)
  else if String.eqb name "analyze_metadata" then (ret (analyze_metadata W input), t)
  else if String.eqb name "generate_report"
       then (generate_report W uuid4 utcnow input, t)
  else if String.eqb name "store_results"
       then match store_results W input t with
            | inl e => (inl e, t)
            | inr (record, t') => (inr record, t')
            end
  else (raise (LibraryError "Exception" ("The activity function '" ++ name ++ "' does not exist")), t).

End FunctionApp.

(* ================================================================= *)
(** ** A small world to run the program in *)

Module TestWorld.
Import Py FunctionApp.

Record TestImage : Type := {
  ti_mode : string;
  ti_size : Z * Z;
  ti_format : option string;
  ti_data : list pixel
}.

Definition photo_bytes : bytes := [Byte.x89; Byte.x50; Byte.x4e; Byte.x47].

(** One blob, [images/photo.png], decoding to [img]; downsampling it
    gives the pixel grid [sampled]. *)
Definition world (img : TestImage) (sampled : list pixel) : World := {|
  environ := fun name =>
    if String.eqb name "ImageStorageConnection"
    then Some "UseDevelopmentStorage=true" else None;
  BlobService := fun _ => ret (fun container blob =>
    if andb (String.eqb container "images") (String.eqb blob "photo.png")
    then ret photo_bytes
    else raise (LibraryError "ResourceNotFoundError" "The specified blob does not exist."));
  get_blob_other := fun _ _ _ =>
    raise (LibraryError "ResourceNotFoundError" "The specified blob does not exist.");
  TableService := fun _ => ret tt;
  Image := TestImage;
  Image_open := fun _ => ret img;
  mode := ti_mode;
  size := ti_size;
  format := ti_format;
  convert := fun im m => ret {| ti_mode := m; ti_size := ti_size im;
                                ti_format := None; ti_data := ti_data im |};
  resize := fun im sz => ret {| ti_mode := ti_mode im; ti_size := sz;
                                ti_format := None; ti_data := sampled |};
  getdata := ti_data;
  json_dumps := fun _ _ => "{}";
  json_loads := fun s =>
    if String.eqb s "{}" then ret (VDict [])
    else raise (LibraryError "JSONDecodeError" "Expecting value");
  repr := fun _ => "..."
|}.

Definition solid (p : pixel) : list pixel := repeat p 2500.

Definition red_100x50 : TestImage :=
  {| ti_mode := "RGB"; ti_size := (100, 50); ti_format := Some "PNG";
     ti_data := repeat (255, 0, 0) 5000 |}.

Definition red_world : World := world red_100x50 (solid (255, 0, 0)).

(** A 50 x 50 RGB image holding the pixel grid [px]; downsampling it to
    50 x 50 gives [px] back. *)
Definition grid_image (px : list pixel) : TestImage :=
  {| ti_mode := "RGB"; ti_size := (50, 50); ti_format := Some "PNG";
     ti_data := px |}.

Definition grid_world (px : list pixel) : World := world (grid_image px) px.

Definition photo_job : Job :=
  {| blob_name := "images/photo.png"; blob_size_kb := 1.25 |}.

Definition missing_job : Job :=
  {| blob_name := "images/missing.png"; blob_size_kb := 0.5 |}.

(** Five buckets holding 504, 499, 499, 499 and 499 of the samples. *)
Definition uneven_pixels : list pixel :=
  repeat (0, 0, 0) 504 ++ repeat (40, 0, 0) 499 ++ repeat (0, 40, 0) 499
  ++ repeat (0, 0, 40) 499 ++ repeat (40, 40, 40) 499.

(** Five buckets of 499 samples and a sixth of 5. *)
Definition six_bucket_pixels : list pixel :=
  repeat (0, 0, 0) 499 ++ repeat (40, 0, 0) 499 ++ repeat (0, 40, 0) 499
  ++ repeat (0, 0, 40) 499 ++ repeat (40, 40, 40) 499 ++ repeat (200, 200, 200) 5.

Definition stored (id at_ : string) : entity :=
  {| PartitionKey := PARTITION_KEY; RowKey := id; FileName := "photo.png";
     BlobPath := "images/photo.png"; AnalyzedAt := at_; Summary := "{}";
     ColorAnalysis := "{}"; ObjectAnalysis := "{}"; TextAnalysis := "{}";
     MetadataAnalysis := "{}" |}.

Definition five_records : Table :=
  [stored "a" "2024-03-01T10:00:00"; stored "b" "2024-03-05T08:30:00.120000";
   stored "c" "2024-02-11T23:59:59"; stored "d" "2024-03-04T00:00:00";
   stored "e" "2024-01-01T00:00:00"].

Definition list_request (limit : option string) : HttpRequest :=
  {| route_params := [];
     params := match limit with Some s => [("limit", s)] | None => [] end |}.

Definition id_request (id : string) : HttpRequest :=
  {| route_params := [("id", id)]; params := [] |}.

(** The registered activities, except that the metadata activity is
    lost by its host: a fault outside the analyzer's own guard. *)
Definition faulty_activities (W : World) (uuid4 utcnow : string)
    (name : string) (input : value) (t : Table) : result value * Table :=
  if String.eqb name "analyze_metadata"
  then (raise (LibraryError "Exception" "Activity function 'analyze_metadata' failed"), t)
  else activities W uuid4 utcnow name input t.

End TestWorld.

(* ================================================================= *)
(** ** Vocabulary of the specification *)

Module Spec.
Import Py FunctionApp.

(** [f] is what follows the last ["/"] of [s], or [s] when it has none. *)
Definition after_last_slash (s f : string) : Prop :=
  contains_slash f = false /\
  ((contains_slash s = false /\ f = s) \/
   exists prefix, s = (prefix ++ String slash f)%string).

(** A color result the Report Builder can read: [dominantColors] is
    absent, or falsy, or a list whose first element is a dict with a
    [hex] entry. *)
Definition well_formed_colors (colors : list (string * value)) : Prop :=
  match lookup "dominantColors" colors with
  | None => True
  | Some v =>
      truthy v = false \/
      exists c rest h, v = VList (VDict c :: rest) /\ lookup "hex" c = Some h
  end.

(** The response of the [except] clause of [get_results]. *)
Definition error_response (W : World) (e : exn) : HttpResponse :=
  {| body := json_dumps W None (VDict [("error", VStr (str_exn e))]);
     mimetype := "application/json";
     status_code := 500 |}.

(** One-decimal rounding of [count / 2500 * 100], counted in tenths:
    [2 * count / 5] rounded to the nearest integer. *)
Definition tenths (count : Z) : Z := round_half_even (2 * count) 5.

(** The number of samples whose bucket is [key]. *)
Definition samples_in (pixels : list pixel) (key : pixel) : Z :=
  Z.of_nat (List.length (filter (fun p => pixel_eqb (bucket p) key) pixels)).

Definition sum_of (l : list Z) : Z := fold_right Z.add 0 l.

(** The value stored under [key] in the counting dict, 0 when absent. *)
Definition count_of (key : pixel) (d : list (pixel * Z)) : Z :=
  match find (fun kc => pixel_eqb (fst kc) key) d with
  | Some kc => snd kc
  | None => 0
  end.

(** The dict emitted for a bucket whose rounded share is [pct]. *)
Definition entry_of (kc : pixel * Z) (pct : float) : value :=
  let '((r, g, b), _) := kc in
  VDict [("hex", VStr ("#" ++ format_02x r ++ format_02x g ++ format_02x b));
         ("rgb", VDict [("r", VInt r); ("g", VInt g); ("b", VInt b)]);
         ("percentage", VFloat pct)].

(** The entry of a bucket of a 2500-sample grid. *)
Definition dominant_entry (kc : pixel * Z) : value :=
  entry_of kc (float_of_ratio (tenths (snd kc)) 10).

(** Checked by evaluation for every count of a 2500-sample grid: the
    quotient is finite, the scaled share is a positive finite number and
    its one-decimal rounding is [tenths count] tenths. *)
Definition percentage_check (count : Z) : bool :=
  match truediv count 2500 with
  | inr q =>
      match Prim2SF (q * 100)%float, decimal_digits (q * 100)%float 1 with
      | S754_finite false _ _, Some k => k =? tenths count
      | _, _ => false
      end
  | inl _ => false
  end.

(** Checked by evaluation for every number of neutral samples: the
    binary64 comparison with 0.9 agrees with the exact one. *)
Definition grayscale_check (n : Z) : bool :=
  match truediv n 2500 with
  | inr q => Bool.eqb (PrimFloat.ltb 0.9 q) (2250 <? n)
  | inl _ => false
  end.

(** The [percentage] fields of a color result, and their sum as
    Python's [sum] computes it. *)
Definition percentages (v : value) : list float :=
  match v with
  | VDict d =>
      match lookup "dominantColors" d with
      | Some (VList entries) =>
          flat_map (fun entry =>
                      match entry with
                      | VDict c => match lookup "percentage" c with
                                   | Some (VFloat pct) => [pct]
                                   | _ => []
                                   end
                      | _ => []
                      end) entries
      | _ => []
      end
  | _ => []
  end.

Definition float_sum (l : list float) : float :=
  fold_left PrimFloat.add l 0%float.

(** [a] may stand before [b] in a descending order: its key is not
    smaller. *)
Definition not_below {A K : Type} (ltb : K -> K -> bool) (key : A -> K)
    (a b : A) : Prop :=
  ltb (key a) (key b) = false.

(** The row the list endpoint shows for a stored record whose summary
    parses to [summary]. *)
Definition listing_row (e : entity) (summary : value) : value :=
  VDict [("id", VStr (RowKey e)); ("fileName", VStr (FileName e));
         ("analyzedAt", VStr (AnalyzedAt e)); ("summary", summary)].

(** The 200 response of the list endpoint. *)
Definition listing_response (W : World) (results : list value) : HttpResponse :=
  {| body := json_dumps W (Some 2)
               (VDict [("count", VInt (Z.of_nat (List.length results)));
                       ("results", VList results)]);
     mimetype := "application/json";
     status_code := 200 |}.

(** Row [a] is not older than row [b]. *)
Definition not_older (a b : value) : Prop :=
  String.ltb (analyzedAt_key a) (analyzedAt_key b) = false.

End Spec.

(* ================================================================= *)
(** ** Further vocabulary: encodings, stored rows, fixtures *)

Module Notions.
Import Py FunctionApp Spec.

(** The value of a lowercase hexadecimal digit. *)
Definition hex_value (c : ascii) : option Z :=
  let n := nat_of_ascii c in
  if andb (Nat.leb 48 n) (Nat.leb n 57) then Some (Z.of_nat (n - 48)%nat)
  else if andb (Nat.leb 97 n) (Nat.leb n 102) then Some (Z.of_nat (n - 87)%nat)
  else None.

(** Reading back two hexadecimal digits. *)
Definition decode_02x (s : string) : option Z :=
  match s with
  | String a (String b EmptyString) =>
      match hex_value a, hex_value b with
      | Some x, Some y => Some (16 * x + y)
      | _, _ => None
      end
  | _ => None
  end.

(** Reading back a ["#rrggbb"] string. *)
Definition decode_hex (s : string) : option pixel :=
  match s with
  | String "#"%char
      (String r1 (String r2 (String g1 (String g2 (String b1 (String b2 EmptyString)))))) =>
      match decode_02x (String r1 (String r2 EmptyString)),
            decode_02x (String g1 (String g2 EmptyString)),
            decode_02x (String b1 (String b2 EmptyString)) with
      | Some r, Some g, Some b => Some (r, g, b)
      | _, _, _ => None
      end
  | _ => None
  end.

(** Checked by evaluation for every channel value. *)
Definition hex_check (n : Z) : bool :=
  match decode_02x (format_02x n) with
  | Some m => m =? n
  | None => false
  end.

(** The distinct elements of [l] that are not in [seen], in the order of
    their first occurrence. *)
Fixpoint first_seen (seen l : list pixel) : list pixel :=
  match l with
  | [] => []
  | p :: l' =>
      if existsb (fun q => pixel_eqb q p) seen then first_seen seen l'
      else p :: first_seen (seen ++ [p]) l'
  end.

(** The shape of the reports [generate_report] returns. *)
Definition built_report (id file_name blob_path analyzed_at : string)
    (colors objects text metadata summary : value) : value :=
  VDict [("id", VStr id); ("fileName", VStr file_name);
         ("blobPath", VStr blob_path); ("analyzedAt", VStr analyzed_at);
         ("analyses", VDict [("colors", colors); ("objects", objects);
                             ("text", text); ("metadata", metadata)]);
         ("summary", summary)].

(** The row [store_results] writes for such a report. *)
Definition stored_entity (W : World) (id file_name blob_path analyzed_at : string)
    (colors objects text metadata summary : value) : entity :=
  {| PartitionKey := PARTITION_KEY;
     RowKey := id;
     FileName := file_name;
     BlobPath := blob_path;
     AnalyzedAt := analyzed_at;
     Summary := json_dumps W None summary;
     ColorAnalysis := json_dumps W None colors;
     ObjectAnalysis := json_dumps W None objects;
     TextAnalysis := json_dumps W None text;
     MetadataAnalysis := json_dumps W None metadata |}.

(** The acknowledgment [store_results] returns. *)
Definition acknowledgment (id file_name analyzed_at : string) : value :=
  VDict [("id", VStr id); ("fileName", VStr file_name);
         ("status", VStr "stored"); ("analyzedAt", VStr analyzed_at)].

(** The document the query endpoint serialises for one row. *)
Definition fetched_report (id file_name blob_path analyzed_at : string)
    (colors objects text metadata summary : value) : value :=
  VDict [("id", VStr id); ("fileName", VStr file_name);
         ("blobPath", VStr blob_path); ("analyzedAt", VStr analyzed_at);
         ("summary", summary);
         ("analyses", VDict [("colors", colors); ("objects", objects);
                             ("text", text); ("metadata", metadata)])].

(** The summary of a report whose dominant color is [dominant]. *)
Definition summary_of (W : World) (colors objects text metadata : list (string * value))
    (dominant : value) : value :=
  VDict [("imageSize",
          VStr (format_value W (match lookup "width" metadata with
                                | Some w => w | None => VInt 0 end)
                ++ "x"
                ++ format_value W (match lookup "height" metadata with
                                   | Some h => h | None => VInt 0 end)));
         ("format", match lookup "format" metadata with
                    | Some x => x | None => VStr "Unknown" end);
         ("dominantColor", dominant);
         ("objectsDetected", match lookup "objectCount" objects with
                             | Some x => x | None => VInt 0 end);
         ("hasText", match lookup "hasText" text with
                     | Some x => x | None => VBool false end);
         ("isGrayscale", match lookup "isGrayscale" colors with
                         | Some x => x | None => VBool false end)].

(** The input of [generate_report] for a blob name and four results. *)
Definition report_data (name : string) (colors objects text metadata : value) : value :=
  VDict [("blob_name", VStr name); ("colors", colors); ("objects", objects);
         ("text", text); ("metadata", metadata)].

(** The four analyzer activities by task index. *)
Definition analysis_name (i : nat) : string :=
  match i with
  | 0%nat => "analyze_colors"
  | 1%nat => "analyze_objects"
  | 2%nat => "analyze_text"
  | _ => "analyze_metadata"
  end.

Definition analysis_result (W : World) (input : value) (i : nat) : value :=
  match i with
  | 0%nat => analyze_colors W input
  | 1%nat => analyze_objects W input
  | 2%nat => analyze_text input
  | _ => analyze_metadata W input
  end.

(** The error-flagged results of the three fetching analyzers. *)
Definition colors_error (e : exn) : value :=
  VDict [("dominantColors", VList []); ("isGrayscale", VBool false);
         ("totalPixelsSampled", VInt 0); ("error", VStr (str_exn e))].

Definition objects_error (e : exn) : value :=
  VDict [("objects", VList []); ("objectCount", VInt 0);
         ("error", VStr (str_exn e))].

Definition metadata_error (e : exn) : value :=
  VDict [("width", VInt 0); ("height", VInt 0); ("format", VStr "Unknown");
         ("error", VStr (str_exn e))].

(** A process without the storage connection string. *)
Definition unconfigured_world : World := {|
  environ := fun _ => None;
  BlobService := BlobService TestWorld.red_world;
  get_blob_other := get_blob_other TestWorld.red_world;
  TableService := TableService TestWorld.red_world;
  Image := Image TestWorld.red_world;
  Image_open := Image_open TestWorld.red_world;
  mode := mode TestWorld.red_world;
  size := size TestWorld.red_world;
  format := format TestWorld.red_world;
  convert := convert TestWorld.red_world;
  resize := resize TestWorld.red_world;
  getdata := getdata TestWorld.red_world;
  json_dumps := json_dumps TestWorld.red_world;
  json_loads := json_loads TestWorld.red_world;
  repr := repr TestWorld.red_world
|}.

(** A world whose table service cannot be reached. *)
Definition table_down_world : World := {|
  environ := environ TestWorld.red_world;
  BlobService := BlobService TestWorld.red_world;
  get_blob_other := get_blob_other TestWorld.red_world;
  TableService := fun _ => raise (LibraryError "ServiceRequestError" "connection refused");
  Image := Image TestWorld.red_world;
  Image_open := Image_open TestWorld.red_world;
  mode := mode TestWorld.red_world;
  size := size TestWorld.red_world;
  format := format TestWorld.red_world;
  convert := convert TestWorld.red_world;
  resize := resize TestWorld.red_world;
  getdata := getdata TestWorld.red_world;
  json_dumps := json_dumps TestWorld.red_world;
  json_loads := json_loads TestWorld.red_world;
  repr := repr TestWorld.red_world
|}.

(** Stored records, three of which share one analyzedAt value. *)
Definition tied_records : Table :=
  [TestWorld.stored "a" "2024-03-01T10:00:00";
   TestWorld.stored "b" "2024-03-05T08:30:00";
   TestWorld.stored "c" "2024-03-01T10:00:00";
   TestWorld.stored "d" "2024-03-01T10:00:00"].

(** A report whose parts are empty documents. *)
Definition empty_report : value :=
  built_report "id-7" "photo.png" "images/photo.png" "2024-03-07T12:00:00"
    (VDict []) (VDict []) (VDict []) (VDict []) (VDict []).

(** Buckets of 514, 514, 499, 489 and 484 samples. *)
Definition rounding_pixels : list pixel :=
  repeat (0, 0, 0) 514 ++ repeat (40, 0, 0) 514 ++ repeat (0, 40, 0) 499
  ++ repeat (0, 0, 40) 489 ++ repeat (40, 40, 40) 484.

End Notions.

(* ================================================================= *)
(** ** Properties *)

Import Py FunctionApp Spec.

Lemma bind_inr {A B} (m : result A) (k : A -> result B) (a : A) :
  m = inr a -> bind m k = k a.
Proof. intros ->; reflexivity. Qed.

Lemma bind_inl {A B} (m : result A) (k : A -> result B) (e : exn) :
  m = inl e -> bind m k = inl e.
Proof. intros ->; reflexivity. Qed.

(** *** Analyzer failure paths *)

(** C5. Whenever fetching or decoding the samples raises [e], or the
    processing of the decoded samples does, the Color Analyzer returns
    the zero-value result (no dominant colors, [isGrayscale] false,
    [totalPixelsSampled] 0) with [error] set to [str(e)]: the exception
    stays inside the analyzer, whose result is a plain value. *)
Theorem analyze_colors_failure (W : World) (inputData : value) (e : exn) :
  sample_pixels W inputData = inl e \/
  (exists pixels, sample_pixels W inputData = inr pixels /\
                  color_statistics pixels = inl e) ->
  analyze_colors W inputData =
    VDict [("dominantColors", VList []);
           ("isGrayscale", VBool false);
           ("totalPixelsSampled", VInt 0);
           ("error", VStr (str_exn e))].
Proof.
  intros H. unfold analyze_colors, analyze_colors_body.
  destruct H as [H | [pixels [H1 H2]]].
  - rewrite (bind_inl _ _ _ H). reflexivity.
  - rewrite (bind_inr _ _ _ H1), H2. reflexivity.
Qed.

Lemma analyze_colors_failure_witness :
  analyze_colors TestWorld.red_world (client_input TestWorld.missing_job) =
    VDict [("dominantColors", VList []);
           ("isGrayscale", VBool false);
           ("totalPixelsSampled", VInt 0);
           ("error", VStr "The specified blob does not exist.")].
Proof.
  apply (analyze_colors_failure TestWorld.red_world
           (client_input TestWorld.missing_job)
           (LibraryError "ResourceNotFoundError" "The specified blob does not exist.")).
  left. reflexivity.
Defined.

(** C10. When the Metadata Analyzer's guarded block raises, its result
    has exactly the keys width (0), height (0), format ("Unknown") and
    error; mode, totalPixels, megapixels and sizeKB are absent, whatever
    [blob_size_kb] the input carries. *)
Theorem analyze_metadata_failure (W : World) (inputData : value) (e : exn) :
  analyze_metadata_body W inputData = inl e ->
  exists d,
    analyze_metadata W inputData = VDict d /\
    d = [("width", VInt 0); ("height", VInt 0);
         ("format", VStr "Unknown"); ("error", VStr (str_exn e))] /\
    keys d = ["width"; "height"; "format"; "error"] /\
    lookup "mode" d = None /\ lookup "totalPixels" d = None /\
    lookup "megapixels" d = None /\ lookup "sizeKB" d = None.
Proof.
  intros H. unfold analyze_metadata. rewrite H. simpl.
  eexists; split; [reflexivity |]. repeat split; reflexivity.
Qed.

Lemma analyze_metadata_failure_witness :
  get (client_input TestWorld.missing_job) "blob_size_kb" VNone = inr (VFloat 0.5) /\
  exists d,
    analyze_metadata TestWorld.red_world (client_input TestWorld.missing_job) = VDict d /\
    d = [("width", VInt 0); ("height", VInt 0); ("format", VStr "Unknown");
         ("error", VStr "The specified blob does not exist.")] /\
    keys d = ["width"; "height"; "format"; "error"] /\
    lookup "mode" d = None /\ lookup "totalPixels" d = None /\
    lookup "megapixels" d = None /\ lookup "sizeKB" d = None.
Proof.
  split; [reflexivity |].
  apply (analyze_metadata_failure TestWorld.red_world
           (client_input TestWorld.missing_job)
           (LibraryError "ResourceNotFoundError" "The specified blob does not exist.")).
  reflexivity.
Defined.

(** *** Object analyzer *)

(** C6. For a decoded image of size [w] x [h] the Object Analyzer
    returns a list of dicts [{"name": ..., "confidence": ...}]: first
    the aspect entry (landscape 0.85 when [w > h], portrait 0.82 when
    [h > w], square composition 0.90 when equal), then the
    high-resolution scene entry with 0.78 exactly when
    [w * h > 1000000], then the digital image entry with 0.99; and
    objectCount is the length of that list.  When fetching or decoding
    raises [e] it returns an empty list, objectCount 0 and [error]. *)
Theorem analyze_objects_spec (W : World) (inputData : value) :
  (forall image w h,
      open_image W inputData = inr image -> size W image = (w, h) ->
      exists aspect confidence objs,
        analyze_objects W inputData =
          VDict [("objects", VList objs);
                 ("objectCount", VInt (Z.of_nat (List.length objs)));
                 ("note", VStr "Mock analysis")] /\
        objs = [VDict [("name", VStr aspect); ("confidence", VFloat confidence)]]
               ++ (if 1000000 <? w * h
                   then [VDict [("name", VStr "high-resolution scene");
                                ("confidence", VFloat 0.78)]]
                   else [])
               ++ [VDict [("name", VStr "digital image");
                          ("confidence", VFloat 0.99)]] /\
        (h < w -> aspect = "landscape" /\ confidence = 0.85%float) /\
        (w < h -> aspect = "portrait" /\ confidence = 0.82%float) /\
        (w = h -> aspect = "square composition" /\ confidence = 0.90%float) /\
        (In (VDict [("name", VStr "high-resolution scene");
                    ("confidence", VFloat 0.78)]) objs <-> 1000000 < w * h) /\
        last objs VNone =
          VDict [("name", VStr "digital image"); ("confidence", VFloat 0.99)] /\
        (2 <= List.length objs <= 3)%nat) /\
  (forall e,
      open_image W inputData = inl e ->
      analyze_objects W inputData =
        VDict [("objects", VList []); ("objectCount", VInt 0);
               ("error", VStr (str_exn e))]).
Proof.
  split.
  - intros image w h Ho Hs.
    unfold analyze_objects, analyze_objects_body.
    rewrite (bind_inr _ _ _ Ho), Hs. simpl try_except. unfold mock_objects, tag.
    destruct (h <? w) eqn:Hl; [| destruct (w <? h) eqn:Hp];
      destruct (1000000 <? w * h) eqn:Hr;
      (eexists; eexists; eexists;
       split; [reflexivity |]; split; [reflexivity |]);
      rewrite ?Z.ltb_lt, ?Z.ltb_ge in *;
      repeat split; intros; repeat split;
      first [ lia | reflexivity | assumption
            | (simpl; auto; fail)
            | (exfalso; simpl in *; intuition discriminate) ].
  - intros e Ho. unfold analyze_objects, analyze_objects_body.
    rewrite (bind_inl _ _ _ Ho). reflexivity.
Qed.

Lemma analyze_objects_spec_witness :
  analyze_objects TestWorld.red_world (client_input TestWorld.photo_job) =
    VDict [("objects",
            VList [VDict [("name", VStr "landscape"); ("confidence", VFloat 0.85)];
                   VDict [("name", VStr "digital image"); ("confidence", VFloat 0.99)]]);
           ("objectCount", VInt 2); ("note", VStr "Mock analysis")] /\
  analyze_objects TestWorld.red_world (client_input TestWorld.missing_job) =
    VDict [("objects", VList []); ("objectCount", VInt 0);
           ("error", VStr "The specified blob does not exist.")].
Proof.
  destruct (analyze_objects_spec TestWorld.red_world
              (client_input TestWorld.photo_job)) as [Hok _].
  destruct (analyze_objects_spec TestWorld.red_world
              (client_input TestWorld.missing_job)) as [_ Herr].
  split.
  - destruct (Hok TestWorld.red_100x50 100 50 eq_refl eq_refl)
      as [aspect [confidence [objs [Hr [Hobjs [Hl _]]]]]].
    destruct (Hl ltac:(lia)) as [Ha Hc].
    rewrite Hr, Hobjs, Ha, Hc. reflexivity.
  - apply (Herr (LibraryError "ResourceNotFoundError"
                   "The specified blob does not exist.")).
    reflexivity.
Defined.

(** *** Metadata analyzer *)

(** C7. For a decoded image of size [w] x [h] the Metadata Analyzer
    returns width, height, the format (or "Unknown" when Pillow reports
    none), the color mode, totalPixels [w * h], megapixels
    [round(w * h / 1_000_000, 2)] and, as sizeKB, the input's
    [blob_size_kb] value itself ([None] when the input has none).
    [mp] is the binary64 quotient [w * h / 1_000_000]. *)
Theorem analyze_metadata_success (W : World) (d : list (string * value))
    (image : Image W) (w h : Z) (mp : float) :
  open_image W (VDict d) = inr image ->
  size W image = (w, h) ->
  truediv (w * h) 1000000 = inr mp ->
  analyze_metadata W (VDict d) =
    VDict [("width", VInt w);
           ("height", VInt h);
           ("format", VStr (match format W image with
                            | Some "" | None => "Unknown"
                            | Some f => f
                            end));
           ("mode", VStr (mode W image));
           ("totalPixels", VInt (w * h));
           ("megapixels", VFloat (round mp 2));
           ("sizeKB", match lookup "blob_size_kb" d with
                      | Some kb => kb
                      | None => VNone
                      end)].
Proof.
  intros Ho Hs Hq. unfold analyze_metadata, analyze_metadata_body.
  rewrite (bind_inr _ _ _ Ho), Hs, (bind_inr _ _ _ Hq).
  unfold get, format_or_unknown.
  destruct (lookup "blob_size_kb" d); simpl;
    destruct (format W image) as [[| c f] |]; reflexivity.
Qed.

Lemma analyze_metadata_success_witness :
  analyze_metadata TestWorld.red_world (client_input TestWorld.photo_job) =
    VDict [("width", VInt 100); ("height", VInt 50); ("format", VStr "PNG");
           ("mode", VStr "RGB"); ("totalPixels", VInt 5000);
           ("megapixels", VFloat 0.01); ("sizeKB", VFloat 1.25)].
Proof.
  apply (analyze_metadata_success TestWorld.red_world
           [("blob_name", VStr "images/photo.png"); ("blob_size_kb", VFloat 1.25)]
           TestWorld.red_100x50 100 50 (float_of_ratio 5000 1000000));
    reflexivity.
Defined.

(** *** Query endpoint: failures *)

(** C4, as stated, fails: a lookup of an id that is not stored raises
    inside the handler and the response status is 500, not 200. *)
Lemma get_results_error_status_not_200 :
  get_results_body TestWorld.red_world TestWorld.five_records
    (TestWorld.id_request "no-such-id") =
    inl (LibraryError "ResourceNotFoundError" "The specified resource does not exist.") /\
  status_code (get_results TestWorld.red_world TestWorld.five_records
                 (TestWorld.id_request "no-such-id")) <> 200.
Proof. split; [reflexivity | vm_compute; discriminate]. Qed.

(** C4, amended. Whenever the handler's guarded block raises [e], the
    response has status 500, mimetype application/json and the JSON
    body [{"error": str(e)}]; the lookup of an id that is not stored and
    a limit that is not a number are two such failures and give that
    same shape and status. *)
Theorem get_results_failure (W : World) (t : Table) :
  (forall req e,
      get_results_body W t req = inl e ->
      get_results W t req = error_response W e) /\
  (forall c id,
      get_table_client W = inr tt ->
      find (same_row PARTITION_KEY (String c id)) t = None ->
      get_results W t {| route_params := [("id", String c id)]; params := [] |} =
        error_response W (LibraryError "ResourceNotFoundError"
                            "The specified resource does not exist.")) /\
  (forall s m,
      get_table_client W = inr tt ->
      int_of_string s = inl (ValueError m) ->
      get_results W t {| route_params := []; params := [("limit", s)] |} =
        error_response W (ValueError m)).
Proof.
  split; [| split].
  - intros req e H. unfold get_results. rewrite H. reflexivity.
  - intros c id Hc Hf. unfold get_results, get_results_body.
    rewrite (bind_inr _ _ _ Hc). simpl lookup. unfold get_entity.
    rewrite Hf. reflexivity.
  - intros s m Hc Hs. unfold get_results, get_results_body.
    rewrite (bind_inr _ _ _ Hc). simpl lookup.
    change (requested_limit {| route_params := []; params := [("limit", s)] |})
      with (int_of_string s).
    rewrite Hs. reflexivity.
Qed.

Lemma get_results_failure_witness :
  get_results TestWorld.red_world TestWorld.five_records
    (TestWorld.id_request "no-such-id") =
    {| body := "{}"; mimetype := "application/json"; status_code := 500 |} /\
  get_results TestWorld.red_world TestWorld.five_records
    (TestWorld.list_request (Some "many")) =
    {| body := "{}"; mimetype := "application/json"; status_code := 500 |}.
Proof.
  destruct (get_results_failure TestWorld.red_world TestWorld.five_records)
    as [_ [Hmiss Hlimit]].
  split.
  - exact (Hmiss "n"%char "o-such-id" eq_refl eq_refl).
  - exact (Hlimit "many" _ eq_refl eq_refl).
Defined.

(** *** Report builder *)

(** The last piece of [s.split("/")] has no separator; when [s] has
    one, [s] is some prefix, a separator and that piece, and otherwise
    the split is [s] alone. *)
Lemma split_slash_last (s : string) :
  contains_slash (last (split_slash s) "") = false /\
  (if contains_slash s
   then (exists prefix, s = (prefix ++ String slash (last (split_slash s) ""))%string) /\
        (exists p q ps, split_slash s = p :: q :: ps)
   else split_slash s = [s]).
Proof.
  induction s as [| c s [IHn IHs]]; simpl.
  - split; reflexivity.
  - destruct (Ascii.eqb c slash) eqn:Hc.
    + apply Ascii.eqb_eq in Hc. subst c.
      destruct (contains_slash s).
      * destruct IHs as [[prefix Hp] [p [q [ps Hs]]]].
        rewrite Hs in *. split; [exact IHn |]. split.
        -- exists (String slash prefix). simpl. f_equal. exact Hp.
        -- exists "", p, (q :: ps). reflexivity.
      * rewrite IHs in *. simpl in *. split; [exact IHn |]. split.
        -- exists "". reflexivity.
        -- exists "", s, []. reflexivity.
    + destruct (contains_slash s).
      * destruct IHs as [[prefix Hp] [p [q [ps Hs]]]].
        rewrite Hs in *. split; [exact IHn |]. split.
        -- exists (String c prefix). simpl. f_equal. exact Hp.
        -- exists (String c p), q, ps. reflexivity.
      * rewrite IHs in *. simpl in *. rewrite Hc. split; [exact IHn | reflexivity].
Qed.

Lemma last_piece_last (l : list string) :
  l <> [] -> last_piece l = inr (last l "").
Proof.
  intros Hl. unfold last_piece.
  destruct (exists_last Hl) as [l' [a ->]].
  rewrite rev_app_distr, last_last. reflexivity.
Qed.

Lemma file_name_of_spec (name : string) :
  exists f, file_name_of (VStr name) = inr (VStr f) /\ after_last_slash name f.
Proof.
  unfold file_name_of, after_last_slash, slash_in. simpl.
  destruct (split_slash_last name) as [Hn Hs].
  destruct (contains_slash name) eqn:Hc.
  - destruct Hs as [[prefix Hp] [p [q [ps Hs]]]].
    exists (last (split_slash name) "").
    rewrite last_piece_last by (rewrite Hs; discriminate).
    split; [reflexivity |]. split; [exact Hn |].
    right. exists prefix. exact Hp.
  - exists name. split; [reflexivity |]. split; [exact Hc |].
    left. split; reflexivity.
Qed.

Lemma dominant_color_spec (reportData : value) (colors : list (string * value)) :
  getitem reportData "colors" = inr (VDict colors) ->
  well_formed_colors colors ->
  exists h,
    dominant_color reportData = inr h /\
    (lookup "dominantColors" colors = None \/
     lookup "dominantColors" colors = Some (VList []) -> h = VStr "N/A") /\
    (forall c rest x,
        lookup "dominantColors" colors = Some (VList (VDict c :: rest)) ->
        lookup "hex" c = Some x -> h = x).
Proof.
  intros Hg Hwf. unfold dominant_color, well_formed_colors in *.
  rewrite (bind_inr _ _ _ Hg). unfold get.
  destruct (lookup "dominantColors" colors) as [v |] eqn:Hl.
  - destruct Hwf as [Hf | [c [rest [x [-> Hx]]]]].
    + simpl. rewrite Hf. exists (VStr "N/A"). split; [reflexivity |].
      split; [reflexivity |].
      intros c rest x Hv _. injection Hv as ->. discriminate Hf.
    + simpl bind. rewrite (bind_inr _ _ _ Hg).
      unfold getitem at 1. rewrite Hl. simpl. rewrite Hx.
      exists x. split; [reflexivity |]. split.
      * intros [Hv | Hv]; discriminate Hv.
      * intros c' rest' x' Hv Hx'. injection Hv as -> _. congruence.
  - simpl. exists (VStr "N/A"). split; [reflexivity |]. split; [reflexivity |].
    intros c rest x Hv. discriminate Hv.
Qed.

Lemma color_entries_have_hex (n : Z) (l : list (pixel * Z)) (vs : list value) :
  mapM (color_entry n) l = inr vs ->
  Forall (fun v => exists c h, v = VDict c /\ lookup "hex" c = Some h) vs.
Proof.
  revert vs. induction l as [| [[[r g] b] count] l IH]; simpl; intros vs H.
  - injection H as <-. constructor.
  - destruct (percentage count n) as [e | pct]; simpl in H; [discriminate |].
    destruct (mapM (color_entry n) l) as [e | vs']; simpl in H; [discriminate |].
    injection H as <-. constructor; [| apply IH; reflexivity].
    eexists; eexists; split; reflexivity.
Qed.

(** Whatever happens inside it, the Color Analyzer hands the Report
    Builder a dict it can read. *)
Lemma analyze_colors_well_formed (W : World) (inputData : value) :
  exists colors,
    analyze_colors W inputData = VDict colors /\ well_formed_colors colors.
Proof.
  unfold analyze_colors, analyze_colors_body.
  destruct (sample_pixels W inputData) as [e | pixels]; simpl.
  - eexists; split; [reflexivity |]. left. reflexivity.
  - unfold color_statistics.
    destruct (mapM _ _) as [e | top] eqn:Hm; simpl.
    + eexists; split; [reflexivity |]. left. reflexivity.
    + destruct (truediv _ _) as [e | q]; simpl.
      * eexists; split; [reflexivity |]. left. reflexivity.
      * eexists; split; [reflexivity |]. unfold well_formed_colors. simpl.
        apply color_entries_have_hex in Hm.
        destruct Hm as [| v rest [c [h [-> Hh]]] _]; [left; reflexivity |].
        right. exists c, rest, h. split; [reflexivity | exact Hh].
Qed.

Lemma analyzers_return_dicts (W : World) (inputData : value) :
  (exists objects, analyze_objects W inputData = VDict objects) /\
  (exists text, analyze_text inputData = VDict text) /\
  (exists metadata, analyze_metadata W inputData = VDict metadata).
Proof.
  split; [| split].
  - unfold analyze_objects, analyze_objects_body.
    destruct (open_image W inputData) as [e | image]; simpl;
      [| destruct (size W image)]; eexists; reflexivity.
  - eexists; reflexivity.
  - unfold analyze_metadata, analyze_metadata_body.
    destruct (open_image W inputData) as [e | image]; simpl;
      [eexists; reflexivity |].
    destruct (size W image) as [w h].
    destruct (truediv (w * h) 1000000); simpl; [eexists; reflexivity |].
    destruct (get inputData "blob_size_kb" VNone); simpl; eexists; reflexivity.
Qed.



(** *** Stable descending sort *)

Section SortDescFacts.
Context {A K : Type}.
Variable ltb : K -> K -> bool.
Variable key : A -> K.
Hypothesis ltb_asym : forall a b, ltb a b = true -> ltb b a = false.
Hypothesis geb_trans :
  forall a b c, ltb a b = false -> ltb b c = false -> ltb a c = false.

Local Abbreviation not_below := (not_below ltb key).

Lemma insert_desc_perm (x : A) (l : list A) :
  Permutation (insert_desc ltb key x l) (x :: l).
Proof.
  induction l as [| y l IH]; simpl; [reflexivity |].
  destruct (ltb (key x) (key y)); [| reflexivity].
  rewrite IH. apply perm_swap.
Qed.

Lemma sorted_desc_perm (l : list A) : Permutation (sorted_desc ltb key l) l.
Proof.
  induction l as [| x l IH]; simpl; [reflexivity |].
  rewrite insert_desc_perm. constructor. exact IH.
Qed.

Lemma insert_desc_sorted (x : A) (l : list A) :
  StronglySorted not_below l ->
  StronglySorted not_below (insert_desc ltb key x l).
Proof.
  induction 1 as [| y l Hs IH Hy]; simpl.
  - constructor; constructor.
  - destruct (ltb (key x) (key y)) eqn:Hxy.
    + constructor; [exact IH |].
      apply (Permutation_Forall (Permutation_sym (insert_desc_perm x l))).
      constructor; [apply ltb_asym; exact Hxy | exact Hy].
    + constructor; [constructor; assumption |].
      constructor; [exact Hxy |].
      apply (Forall_impl _ (fun z Hz => geb_trans _ _ _ Hxy Hz) Hy).
Qed.

Lemma sorted_desc_sorted (l : list A) :
  StronglySorted not_below (sorted_desc ltb key l).
Proof.
  induction l as [| x l IH]; simpl; [constructor |].
  apply insert_desc_sorted. exact IH.
Qed.
End SortDescFacts.

Lemma Zltb_asym (a b : Z) : (a <? b) = true -> (b <? a) = false.
Proof. intros H. apply Z.ltb_lt in H. apply Z.ltb_ge. lia. Qed.

Lemma Zgeb_trans (a b c : Z) :
  (a <? b) = false -> (b <? c) = false -> (a <? c) = false.
Proof. rewrite !Z.ltb_ge. lia. Qed.

(** *** The counting dict of the Color Analyzer *)

Lemma pixel_eqb_eq (p q : pixel) : pixel_eqb p q = true <-> p = q.
Proof.
  destruct p as [[r1 g1] b1], q as [[r2 g2] b2]. simpl.
  rewrite !andb_true_iff, !Z.eqb_eq. split.
  - intros [[-> ->] ->]. reflexivity.
  - intros H. injection H as -> -> ->. auto.
Qed.

Lemma pixel_eqb_refl (p : pixel) : pixel_eqb p p = true.
Proof. apply pixel_eqb_eq. reflexivity. Qed.

Lemma dict_incr_keys (k : pixel) (d : list (pixel * Z)) :
  map fst (dict_incr k d) =
    map fst d ++ (if existsb (fun kc => pixel_eqb (fst kc) k) d then [] else [k]).
Proof.
  induction d as [| [k0 c0] d IH]; simpl; [reflexivity |].
  destruct (pixel_eqb k0 k); simpl.
  - rewrite app_nil_r. reflexivity.
  - rewrite IH. reflexivity.
Qed.

Lemma dict_incr_nodup (k : pixel) (d : list (pixel * Z)) :
  NoDup (map fst d) -> NoDup (map fst (dict_incr k d)).
Proof.
  intros Hd. rewrite dict_incr_keys.
  destruct (existsb _ d) eqn:He; [rewrite app_nil_r; exact Hd |].
  apply NoDup_app; [exact Hd | repeat constructor; intros [] |].
  intros x Hx [<- | []].
  apply in_map_iff in Hx. destruct Hx as [[k0 c0] [Hk Hin]]. simpl in Hk. subst k0.
  assert (existsb (fun kc => pixel_eqb (fst kc) k) d = true).
  { apply existsb_exists. exists (k, c0). split; [exact Hin | apply pixel_eqb_refl]. }
  congruence.
Qed.

Lemma dict_incr_count (k k' : pixel) (d : list (pixel * Z)) :
  count_of k' (dict_incr k d) =
    count_of k' d + (if pixel_eqb k k' then 1 else 0).
Proof.
  unfold count_of. induction d as [| [k0 c0] d IH]; simpl.
  - destruct (pixel_eqb k k'); reflexivity.
  - destruct (pixel_eqb k0 k) eqn:H0; simpl.
    + apply pixel_eqb_eq in H0. subst k0.
      destruct (pixel_eqb k k'); simpl; lia.
    + destruct (pixel_eqb k0 k') eqn:H1; simpl; [| exact IH].
      apply pixel_eqb_eq in H1. subst k0.
      destruct (pixel_eqb k k') eqn:H2; [| lia].
      apply pixel_eqb_eq in H2. subst k'. rewrite pixel_eqb_refl in H0.
      discriminate H0.
Qed.

Lemma dict_incr_sum (k : pixel) (d : list (pixel * Z)) :
  sum_of (map snd (dict_incr k d)) = sum_of (map snd d) + 1.
Proof.
  induction d as [| [k0 c0] d IH]; simpl; [reflexivity |].
  destruct (pixel_eqb k0 k); simpl; lia.
Qed.

Lemma dict_incr_positive (k : pixel) (d : list (pixel * Z)) :
  Forall (fun kc => 1 <= snd kc) d ->
  Forall (fun kc => 1 <= snd kc) (dict_incr k d).
Proof.
  induction 1 as [| [k0 c0] d Hc Hd IH]; simpl.
  - constructor; [simpl; lia | constructor].
  - destruct (pixel_eqb k0 k); constructor; simpl in *; try assumption; lia.
Qed.

(** What the loop of lines 103-105 maintains, from any dict [d]. *)
Lemma fold_counts_invariant (pixels : list pixel) (d : list (pixel * Z)) :
  let d' := fold_left (fun d p => dict_incr (bucket p) d) pixels d in
  (NoDup (map fst d) -> NoDup (map fst d')) /\
  (Forall (fun kc => 1 <= snd kc) d -> Forall (fun kc => 1 <= snd kc) d') /\
  sum_of (map snd d') = sum_of (map snd d) + Z.of_nat (List.length pixels) /\
  (forall k, count_of k d' = count_of k d + samples_in pixels k).
Proof.
  revert d. induction pixels as [| p pixels IH]; intros d; simpl.
  - repeat split; auto; unfold samples_in; simpl; intros; lia.
  - destruct (IH (dict_incr (bucket p) d)) as [Hn [Hp [Hs Hc]]].
    repeat split.
    + intros H. apply Hn, dict_incr_nodup, H.
    + intros H. apply Hp, dict_incr_positive, H.
    + rewrite Hs, dict_incr_sum. lia.
    + intros k. rewrite Hc, dict_incr_count. unfold samples_in. simpl.
      destruct (pixel_eqb (bucket p) k); simpl List.length; lia.
Qed.

Lemma count_of_in (k : pixel) (c : Z) (d : list (pixel * Z)) :
  NoDup (map fst d) -> In (k, c) d -> count_of k d = c.
Proof.
  unfold count_of. induction d as [| [k0 c0] d IH]; simpl; [intros _ [] |].
  intros Hn [H | H].
  - injection H as -> ->. rewrite pixel_eqb_refl. reflexivity.
  - inversion Hn as [| ? ? Hnot Hd]; subst.
    destruct (pixel_eqb k0 k) eqn:Hk; [| apply IH; assumption].
    apply pixel_eqb_eq in Hk. subst k0. exfalso. apply Hnot.
    apply in_map_iff. exists (k, c). split; [reflexivity | exact H].
Qed.

Lemma count_of_key (k : pixel) (d : list (pixel * Z)) :
  count_of k d <> 0 -> In k (map fst d).
Proof.
  unfold count_of. destruct (find _ d) as [[k0 c0] |] eqn:Hf; [| congruence].
  intros _. apply find_some in Hf. destruct Hf as [Hin Hk]. simpl in Hk.
  apply pixel_eqb_eq in Hk. subst k0.
  apply in_map_iff. exists (k, c0). split; [reflexivity | exact Hin].
Qed.

Lemma samples_in_positive (pixels : list pixel) (p : pixel) :
  In p pixels -> 1 <= samples_in pixels (bucket p).
Proof.
  intros Hin. unfold samples_in.
  assert (H : In p (filter (fun q => pixel_eqb (bucket q) (bucket p)) pixels)).
  { apply filter_In. split; [exact Hin | apply pixel_eqb_refl]. }
  destruct (filter _ pixels); [destruct H | simpl List.length; lia].
Qed.

Lemma samples_in_witness (pixels : list pixel) (k : pixel) :
  1 <= samples_in pixels k -> exists p, In p pixels /\ bucket p = k.
Proof.
  unfold samples_in. intros H.
  destruct (filter _ pixels) as [| p l] eqn:Hf; [simpl in H; lia |].
  assert (Hp : In p (filter (fun q => pixel_eqb (bucket q) k) pixels))
    by (rewrite Hf; left; reflexivity).
  apply filter_In in Hp. destruct Hp as [Hin Hk].
  exists p. split; [exact Hin | apply pixel_eqb_eq; exact Hk].
Qed.

Lemma samples_in_le (pixels : list pixel) (k : pixel) :
  samples_in pixels k <= Z.of_nat (List.length pixels).
Proof.
  unfold samples_in. apply inj_le. apply filter_length_le.
Qed.

(** The dict after the loop: distinct keys, each holding the number of
    samples of its bucket, which is at least 1; every sample's bucket is
    a key; the counts add up to the number of samples. *)
Lemma color_counts_spec (pixels : list pixel) :
  NoDup (map fst (color_counts pixels)) /\
  (forall k c, In (k, c) (color_counts pixels) ->
               c = samples_in pixels k /\ 1 <= c) /\
  (forall p, In p pixels -> In (bucket p) (map fst (color_counts pixels))) /\
  sum_of (map snd (color_counts pixels)) = Z.of_nat (List.length pixels).
Proof.
  destruct (fold_counts_invariant pixels []) as [Hn [Hp [Hs Hc]]].
  fold (color_counts pixels) in *. simpl in *.
  specialize (Hn (NoDup_nil _)). specialize (Hp (Forall_nil _)).
  repeat split.
  - exact Hn.
  - rewrite <- (count_of_in k c _ Hn H). rewrite Hc. reflexivity.
  - rewrite Forall_forall in Hp. exact (Hp (k, c) H).
  - intros p Hin. apply count_of_key. rewrite Hc.
    pose proof (samples_in_positive pixels p Hin). unfold count_of. simpl. lia.
  - exact Hs.
Qed.

(** *** Binary64 facts used by the Color Analyzer *)

Lemma round_decimal (x : float) (ndigits k : Z) (m : positive) (e : Z) :
  Prim2SF x = S754_finite false m e ->
  decimal_digits x ndigits = Some k ->
  round x ndigits = float_of_ratio k (10 ^ ndigits).
Proof.
  intros Hx Hk. unfold round. rewrite Hx, Hk.
  destruct k; reflexivity.
Qed.

Lemma upto_forallb (P : Z -> bool) (lo n : nat) :
  forallb P (map Z.of_nat (seq lo n)) = true ->
  forall c, Z.of_nat lo <= c < Z.of_nat (lo + n) -> P c = true.
Proof.
  intros H c Hc. rewrite forallb_forall in H. apply H.
  apply in_map_iff. exists (Z.to_nat c). split; [lia |].
  apply in_seq. lia.
Qed.

Lemma percentage_check_all :
  forallb percentage_check (map Z.of_nat (seq 1 2500)) = true.
Proof. vm_compute. reflexivity. Qed.

Lemma grayscale_check_all :
  forallb grayscale_check (map Z.of_nat (seq 0 2501)) = true.
Proof. vm_compute. reflexivity. Qed.

(** On a 2500-sample grid the share of a bucket never hits a rounding
    tie: [round(count / 2500 * 100, 1)] is the binary64 number nearest
    to [tenths count / 10]. *)
Lemma percentage_2500 (count : Z) :
  1 <= count <= 2500 ->
  percentage count 2500 = inr (float_of_ratio (tenths count) 10).
Proof.
  intros Hc.
  pose proof (upto_forallb _ 1 2500 percentage_check_all count ltac:(lia)) as H.
  unfold percentage_check in H. unfold percentage.
  destruct (truediv count 2500) as [e | q]; [discriminate |]. simpl.
  destruct (Prim2SF (q * 100)%float) as [| | | [|] m e] eqn:Hx; try discriminate.
  destruct (decimal_digits (q * 100)%float 1) as [k |] eqn:Hk; [| discriminate].
  apply Z.eqb_eq in H.
  rewrite (round_decimal _ _ _ _ _ Hx Hk), H. reflexivity.
Qed.

(** On a 2500-sample grid the test [neutral / 2500 > 0.9] holds exactly
    from 2251 neutral samples on. *)
Lemma grayscale_2500 (n : Z) :
  0 <= n <= 2500 ->
  exists q, truediv n 2500 = inr q /\ PrimFloat.ltb 0.9 q = (2250 <? n).
Proof.
  intros Hn.
  pose proof (upto_forallb _ 0 2501 grayscale_check_all n ltac:(lia)) as H.
  unfold grayscale_check in H.
  destruct (truediv n 2500) as [e | q]; [discriminate |].
  exists q. split; [reflexivity | apply eqb_prop; exact H].
Qed.

Lemma round_half_even_bound (n d : Z) :
  0 < d -> 2 * d * round_half_even n d <= 2 * n + d.
Proof.
  intros Hd. unfold round_half_even.
  pose proof (Z.div_mod n d ltac:(lia)) as Hdm.
  pose proof (Z.mod_pos_bound n d Hd) as Hr.
  destruct (Z.compare_spec (2 * (n mod d)) d); [destruct (Z.even (n / d)) | |]; nia.
Qed.

Lemma round_half_even_lower (n d : Z) :
  0 < d -> 2 * n - d <= 2 * d * round_half_even n d.
Proof.
  intros Hd. unfold round_half_even.
  pose proof (Z.div_mod n d ltac:(lia)) as Hdm.
  pose proof (Z.mod_pos_bound n d Hd) as Hr.
  destruct (Z.compare_spec (2 * (n mod d)) d); [destruct (Z.even (n / d)) | |]; nia.
Qed.

Lemma tenths_bounds (count : Z) :
  0 <= count <= 2500 ->
  0 <= tenths count <= 1000 /\ 5 * tenths count <= 2 * count + 2.
Proof.
  intros Hc. unfold tenths.
  pose proof (round_half_even_bound (2 * count) 5 ltac:(lia)).
  pose proof (round_half_even_lower (2 * count) 5 ltac:(lia)).
  lia.
Qed.

(** *** Color analyzer on a decoded image *)

Lemma mapM_color_entry (l : list (pixel * Z)) :
  Forall (fun kc => 1 <= snd kc <= 2500) l ->
  mapM (color_entry 2500) l = inr (map dominant_entry l).
Proof.
  induction 1 as [| [[[r g] b] count] l Hc Hl IH]; simpl; [reflexivity |].
  simpl in Hc. rewrite (percentage_2500 count Hc). simpl. rewrite IH. reflexivity.
Qed.

Lemma filter_all {A} (f : A -> bool) (l : list A) :
  (forall x, In x l -> f x = true) -> filter f l = l.
Proof.
  induction l as [| x l IH]; simpl; intros H; [reflexivity |].
  rewrite (H x (or_introl eq_refl)). f_equal. apply IH. auto.
Qed.

Lemma grayscale_pixels_range (pixels : list pixel) :
  0 <= grayscale_pixels pixels <= Z.of_nat (List.length pixels).
Proof.
  unfold grayscale_pixels. split; [lia |].
  apply inj_le. apply filter_length_le.
Qed.

Lemma in_firstn {A} (n : nat) (l : list A) (x : A) :
  In x (firstn n l) -> In x l.
Proof.
  intros H. rewrite <- (firstn_skipn n l). apply in_or_app. left. exact H.
Qed.

Lemma sorted_colors_perm (pixels : list pixel) :
  Permutation (sorted_colors pixels) (color_counts pixels).
Proof. apply sorted_desc_perm. Qed.

Lemma top_counts_range (pixels : list pixel) (k : pixel) (c : Z) :
  In (k, c) (firstn 5 (sorted_colors pixels)) ->
  c = samples_in pixels k /\ 1 <= c <= Z.of_nat (List.length pixels).
Proof.
  intros Hin. apply in_firstn in Hin.
  apply (Permutation_in _ (sorted_colors_perm pixels)) in Hin.
  destruct (color_counts_spec pixels) as [_ [Hc _]].
  destruct (Hc k c Hin) as [-> H1].
  pose proof (samples_in_le pixels k). auto.
Qed.

(** The result of the Color Analyzer on a decoded, 50 x 50 sampled
    image. *)
Lemma analyze_colors_success (W : World) (inputData : value) (pixels : list pixel) :
  sample_pixels W inputData = inr pixels ->
  List.length pixels = 2500%nat ->
  analyze_colors W inputData =
    VDict [("dominantColors",
            VList (map dominant_entry (firstn 5 (sorted_colors pixels))));
           ("isGrayscale", VBool (2250 <? grayscale_pixels pixels));
           ("totalPixelsSampled", VInt 2500)].
Proof.
  intros Hs Hlen. unfold analyze_colors, analyze_colors_body.
  rewrite (bind_inr _ _ _ Hs). unfold color_statistics.
  replace (Z.of_nat (List.length pixels)) with 2500 by lia.
  rewrite mapM_color_entry.
  - pose proof (grayscale_pixels_range pixels) as Hg.
    destruct (grayscale_2500 (grayscale_pixels pixels) ltac:(lia)) as [q [Hq Hlt]].
    simpl bind. rewrite Hq. simpl. rewrite Hlt. reflexivity.
  - apply Forall_forall. intros [k c] Hin. simpl.
    destruct (top_counts_range pixels k c Hin) as [_ H]. lia.
Qed.

(** C8. A sample counts as neutral exactly when [|R-G| < 30] and
    [|G-B| < 30]; on a decoded image (2500 samples) isGrayscale is true
    exactly when the samples with [|R-G| < 30] and [|G-B| < 30] are more
    than nine tenths of all samples; so it is true when every sample has
    [R = G = B]. *)
Theorem grayscale_classification (W : World) (inputData : value)
    (pixels : list pixel) :
  sample_pixels W inputData = inr pixels ->
  List.length pixels = 2500%nat ->
  (forall r g b,
      neutral (r, g, b) = true <-> Z.abs (r - g) < 30 /\ Z.abs (g - b) < 30) /\
  exists is_grayscale,
    getitem (analyze_colors W inputData) "isGrayscale" = inr (VBool is_grayscale) /\
    (is_grayscale = true <->
     9 * Z.of_nat (List.length pixels) <
     10 * Z.of_nat
            (List.length
               (filter (fun p : pixel =>
                          let '(r, g, b) := p in
                          andb (Z.abs (r - g) <? 30) (Z.abs (g - b) <? 30))
                       pixels))) /\
    (is_grayscale = true <->
     9 * Z.of_nat (List.length pixels) < 10 * grayscale_pixels pixels) /\
    ((forall r g b, In (r, g, b) pixels -> r = g /\ g = b) ->
     is_grayscale = true).
Proof.
  intros Hs Hlen.
  assert (Hneutral : forall r g b,
    neutral (r, g, b) = true <-> Z.abs (r - g) < 30 /\ Z.abs (g - b) < 30).
  { intros r g b. simpl. rewrite andb_true_iff, !Z.ltb_lt. reflexivity. }
  assert (Hcount : grayscale_pixels pixels =
                   Z.of_nat
                     (List.length
                        (filter (fun p : pixel =>
                                   let '(r, g, b) := p in
                                   andb (Z.abs (r - g) <? 30) (Z.abs (g - b) <? 30))
                                pixels))).
  { reflexivity. }
  split; [exact Hneutral |].
  exists (2250 <? grayscale_pixels pixels).
  rewrite (analyze_colors_success W inputData pixels Hs Hlen).
  split; [reflexivity |]. split; [| split].
  - rewrite <- Hcount, Z.ltb_lt, Hlen. lia.
  - rewrite Z.ltb_lt, Hlen. lia.
  - intros Hgray. apply Z.ltb_lt. unfold grayscale_pixels.
    rewrite filter_all, Hlen; [lia |].
    intros [[r g] b] Hin. apply Hneutral.
    destruct (Hgray r g b Hin) as [-> ->].
    rewrite Z.sub_diag. simpl. lia.
Qed.

Lemma grayscale_classification_witness :
  getitem (analyze_colors (TestWorld.grid_world (TestWorld.solid (255, 255, 255)))
             (client_input TestWorld.photo_job)) "isGrayscale" =
    inr (VBool true) /\
  getitem (analyze_colors (TestWorld.grid_world (TestWorld.solid (255, 0, 0)))
             (client_input TestWorld.photo_job)) "isGrayscale" =
    inr (VBool false).
Proof.
  split.
  - destruct (grayscale_classification
                (TestWorld.grid_world (TestWorld.solid (255, 255, 255)))
                (client_input TestWorld.photo_job)
                (TestWorld.solid (255, 255, 255)) eq_refl eq_refl)
      as [_ [g [Hg [_ [_ Hall]]]]].
    rewrite Hg. do 2 f_equal. apply Hall.
    intros r g0 b Hin. apply repeat_spec in Hin.
    injection Hin as -> -> ->. split; reflexivity.
  - destruct (grayscale_classification
                (TestWorld.grid_world (TestWorld.solid (255, 0, 0)))
                (client_input TestWorld.photo_job)
                (TestWorld.solid (255, 0, 0)) eq_refl eq_refl)
      as [_ [g [Hg [Hiff _]]]].
    rewrite Hg. do 2 f_equal. destruct g; [| reflexivity].
    pose proof (proj1 Hiff eq_refl) as Hlt. vm_compute in Hlt. discriminate Hlt.
Defined.

Lemma sum_of_app (l1 l2 : list Z) : sum_of (l1 ++ l2) = sum_of l1 + sum_of l2.
Proof. induction l1 as [| x l1 IH]; simpl; lia. Qed.

Lemma sum_of_perm (l1 l2 : list Z) : Permutation l1 l2 -> sum_of l1 = sum_of l2.
Proof. induction 1; simpl; lia. Qed.

Lemma sum_of_positive (l : list (pixel * Z)) :
  Forall (fun kc => 1 <= snd kc) l ->
  Z.of_nat (List.length l) <= sum_of (map snd l).
Proof.
  induction 1 as [| kc l Hc Hl IH]; [simpl; lia |].
  rewrite map_cons. cbn [List.length]. rewrite Nat2Z.inj_succ.
  unfold sum_of in *. cbn [fold_right]. lia.
Qed.

Lemma sum_of_tenths (l : list (pixel * Z)) :
  Forall (fun kc => 0 <= snd kc <= 2500) l ->
  5 * sum_of (map (fun kc => tenths (snd kc)) l) <=
    2 * sum_of (map snd l) + 2 * Z.of_nat (List.length l).
Proof.
  induction 1 as [| kc l Hc Hl IH]; [simpl; lia |].
  rewrite !map_cons. cbn [List.length]. rewrite Nat2Z.inj_succ.
  unfold sum_of in *. cbn [fold_right].
  pose proof (tenths_bounds (snd kc) Hc). lia.
Qed.

Lemma StronglySorted_firstn {A} (R : A -> A -> Prop) (n : nat) (l : list A) :
  StronglySorted R l -> StronglySorted R (firstn n l).
Proof.
  intros H. revert n. induction H as [| x l Hs IH Hx]; intros [| n]; simpl;
    try constructor.
  - apply IH.
  - apply Forall_forall. intros y Hy. rewrite Forall_forall in Hx.
    apply Hx. exact (in_firstn n l y Hy).
Qed.

Lemma StronglySorted_weaken {A} (R R' : A -> A -> Prop) (l : list A) :
  (forall a b, R a b -> R' a b) -> StronglySorted R l -> StronglySorted R' l.
Proof.
  intros HR. induction 1 as [| x l Hs IH Hx]; constructor; [exact IH |].
  exact (Forall_impl _ (HR x) Hx).
Qed.

Lemma NoDup_app_disjoint {A} (l1 l2 : list A) (x : A) :
  NoDup (l1 ++ l2) -> In x l1 -> In x l2 -> False.
Proof.
  induction l1 as [| y l1 IH]; simpl; [intros _ [] |].
  intros Hn [-> | H1] H2; inversion Hn as [| ? ? Hnot Hrest]; subst.
  - apply Hnot. apply in_or_app. right. exact H2.
  - exact (IH Hrest H1 H2).
Qed.

(** The buckets listed and the buckets left out. *)
Lemma top_and_rest (pixels : list pixel) :
  let top := firstn 5 (sorted_colors pixels) in
  let rest := skipn 5 (sorted_colors pixels) in
  sum_of (map snd top) + sum_of (map snd rest) = Z.of_nat (List.length pixels) /\
  Z.of_nat (List.length rest) <= sum_of (map snd rest) /\
  NoDup (map fst top ++ map fst rest) /\
  (forall k c, In (k, c) rest -> exists p, In p pixels /\ bucket p = k) /\
  (forall p, In p pixels -> In (bucket p) (map fst top ++ map fst rest)).
Proof.
  intros top rest.
  destruct (color_counts_spec pixels) as [Hn [Hc [Hk Hs]]].
  pose proof (sorted_colors_perm pixels) as Hperm.
  assert (Hsplit : sorted_colors pixels = top ++ rest)
    by (symmetry; apply firstn_skipn).
  assert (Hin : forall kc, In kc rest -> In kc (color_counts pixels)).
  { intros kc H. apply (Permutation_in _ Hperm). rewrite Hsplit.
    apply in_or_app. right. exact H. }
  repeat split.
  - rewrite <- Hs, <- (sum_of_perm _ _ (Permutation_map snd Hperm)).
    rewrite Hsplit, map_app, sum_of_app. reflexivity.
  - apply sum_of_positive. apply Forall_forall. intros [k c] H.
    apply (Hc k c), Hin, H.
  - rewrite <- map_app, <- Hsplit.
    apply (Permutation_NoDup (Permutation_sym (Permutation_map fst Hperm))), Hn.
  - intros k c H. destruct (Hc k c (Hin _ H)) as [-> Hpos].
    apply samples_in_witness. exact Hpos.
  - intros p Hp. rewrite <- map_app, <- Hsplit.
    apply (Permutation_in _ (Permutation_sym (Permutation_map fst Hperm))).
    apply Hk, Hp.
Qed.

(** C2, as stated, fails twice.  With buckets of 504, 499, 499, 499 and
    499 samples the percentages are 20.2, 20.0, 20.0, 20.0 and 20.0 and
    sum to more than 100; with five buckets of 499 samples and a sixth
    of 5 they are five times 20.0 and sum to 100 although 5 samples are
    outside the listed buckets. *)
Lemma percentages_sum_counterexample :
  let W1 := TestWorld.grid_world TestWorld.uneven_pixels in
  let W2 := TestWorld.grid_world TestWorld.six_bucket_pixels in
  let job := client_input TestWorld.photo_job in
  (sample_pixels W1 job = inr TestWorld.uneven_pixels /\
   List.length TestWorld.uneven_pixels = 2500%nat /\
   percentages (analyze_colors W1 job) = [20.2; 20.0; 20.0; 20.0; 20.0]%float /\
   PrimFloat.ltb 100 (float_sum (percentages (analyze_colors W1 job))) = true) /\
  (sample_pixels W2 job = inr TestWorld.six_bucket_pixels /\
   List.length TestWorld.six_bucket_pixels = 2500%nat /\
   percentages (analyze_colors W2 job) = [20.0; 20.0; 20.0; 20.0; 20.0]%float /\
   float_sum (percentages (analyze_colors W2 job)) = 100%float /\
   In (200, 200, 200) TestWorld.six_bucket_pixels /\
   ~ In (bucket (200, 200, 200))
        (map fst (firstn 5 (sorted_colors TestWorld.six_bucket_pixels)))).
Proof.
  repeat split; try (vm_compute; reflexivity).
  - unfold TestWorld.six_bucket_pixels. rewrite !in_app_iff.
    do 5 right. left. reflexivity.
  - vm_compute. intros H.
    repeat (destruct H as [H | H]; [discriminate H |]). exact H.
Qed.

(** C2, amended. For a decoded image (2500 samples) dominantColors
    lists the most frequent buckets: the buckets that occur, each with
    the number of its samples, ordered by descending count, are the
    listed ones followed by the others, and the listed ones are the
    first five of them (all of them when fewer occur, and at least one).
    The entry of a bucket with [count] samples carries
    [round(count / 2500 * 100, 1)], which is the binary64 number nearest
    to [k / 10] for the integer [k = tenths count] in [0, 1000], a
    multiple of 0.1 in [0, 100].  The listed counts add up to at most
    2500, and to 2500 exactly when every sample falls into a listed
    bucket.  The decimals [k / 10] of the listed entries add up to at
    most 100.2 ([k] summing to at most 1002); no bound on the binary64
    sum of the emitted numbers is stated. *)
Theorem dominant_colors_spec (W : World) (inputData : value) (pixels : list pixel) :
  sample_pixels W inputData = inr pixels ->
  List.length pixels = 2500%nat ->
  exists top rest,
    getitem (analyze_colors W inputData) "dominantColors" =
      inr (VList (map dominant_entry top)) /\
    (forall r g b, bucket (r, g, b) = (r / 32 * 32, g / 32 * 32, b / 32 * 32)) /\
    NoDup (map fst (top ++ rest)) /\
    (forall key count,
        In (key, count) (top ++ rest) <->
        count = samples_in pixels key /\ 1 <= count) /\
    StronglySorted (fun a b => snd b <= snd a) (top ++ rest) /\
    List.length top = Nat.min 5 (List.length (top ++ rest)) /\
    (1 <= List.length top <= 5)%nat /\
    StronglySorted (fun a b => snd b <= snd a) top /\
    (forall key count,
        In (key, count) top ->
        count = samples_in pixels key /\
        1 <= count <= 2500 /\
        percentage count (Z.of_nat (List.length pixels)) =
          inr (float_of_ratio (tenths count) 10) /\
        0 <= tenths count <= 1000) /\
    sum_of (map snd top) <= 2500 /\
    (sum_of (map snd top) = 2500 <->
     forall p, In p pixels -> In (bucket p) (map fst top)) /\
    sum_of (map (fun kc => tenths (snd kc)) top) <= 1002.
Proof.
  intros Hs Hlen.
  exists (firstn 5 (sorted_colors pixels)), (skipn 5 (sorted_colors pixels)).
  rewrite (analyze_colors_success W inputData pixels Hs Hlen).
  destruct (top_and_rest pixels) as [Hsum [Hrest [Hnodup [Hwit Hkeys]]]].
  destruct (color_counts_spec pixels) as [_ [Hcount [Hbuckets Htotal]]].
  pose proof (sorted_colors_perm pixels) as Hperm.
  assert (Hsorted : StronglySorted (fun a b => snd b <= snd a) (sorted_colors pixels)).
  { apply (StronglySorted_weaken (not_below Z.ltb snd)).
    - intros a b H. apply Z.ltb_ge. exact H.
    - apply sorted_desc_sorted; [exact Zltb_asym | exact Zgeb_trans]. }
  assert (Hsplit : firstn 5 (sorted_colors pixels) ++ skipn 5 (sorted_colors pixels)
                   = sorted_colors pixels) by apply firstn_skipn.
  assert (Hnonempty : (1 <= List.length (sorted_colors pixels))%nat).
  { rewrite (Permutation_length Hperm).
    destruct (color_counts pixels); [simpl in Htotal; lia | simpl; lia]. }
  set (top := firstn 5 (sorted_colors pixels)) in *.
  set (rest := skipn 5 (sorted_colors pixels)) in *.
  assert (Hrange : forall key count, In (key, count) top ->
            count = samples_in pixels key /\ 1 <= count <= 2500).
  { intros key count Hin.
    destruct (top_counts_range pixels key count Hin) as [Hc Hr]. split; [exact Hc | lia]. }
  assert (Hlen5 : List.length top = Nat.min 5 (List.length (sorted_colors pixels)))
    by apply length_firstn.
  split; [reflexivity |].
  split; [intros r g b; reflexivity |].
  split; [rewrite map_app; exact Hnodup |].
  split.
  { intros key count. rewrite Hsplit. split.
    - intros Hin. apply (Hcount key count).
      apply (Permutation_in _ Hperm). exact Hin.
    - intros [Hc Hpos]. subst count.
      destruct (samples_in_witness pixels key Hpos) as [p [Hp Hb]].
      pose proof (Hbuckets p Hp) as Hk. rewrite Hb in Hk.
      apply in_map_iff in Hk. destruct Hk as [[key' c] [Hkey Hin]].
      simpl in Hkey. subst key'.
      destruct (Hcount key c Hin) as [-> _].
      apply (Permutation_in _ (Permutation_sym Hperm)). exact Hin. }
  split; [rewrite Hsplit; exact Hsorted |].
  split; [rewrite Hsplit; exact Hlen5 |].
  split; [lia |].
  split; [apply StronglySorted_firstn; exact Hsorted |].
  split; [| split; [| split]].
  - intros key count Hin. destruct (Hrange key count Hin) as [Hc Hr].
    split; [exact Hc |]. split; [exact Hr |]. split.
    + rewrite Hlen. apply (percentage_2500 count Hr).
    + apply tenths_bounds. lia.
  - lia.
  - split.
    + intros Htop p Hp.
      assert (Hnil : rest = []).
      { destruct rest; [reflexivity | simpl List.length in Hrest; lia]. }
      specialize (Hkeys p Hp). rewrite Hnil, app_nil_r in Hkeys. exact Hkeys.
    + intros Hall. destruct rest as [| [k c] rest'] eqn:Hr; [simpl in Hsum; lia |].
      exfalso. destruct (Hwit k c (or_introl eq_refl)) as [p [Hp Hb]].
      apply (NoDup_app_disjoint _ _ k Hnodup).
      * rewrite <- Hb. apply Hall, Hp.
      * left. reflexivity.
  - assert (Hb : Forall (fun kc => 0 <= snd kc <= 2500) top).
    { apply Forall_forall. intros [k c] Hin. simpl.
      destruct (Hrange k c Hin) as [_ H]. lia. }
    pose proof (sum_of_tenths top Hb). lia.
Qed.

Lemma dominant_colors_spec_witness :
  exists top rest,
    getitem (analyze_colors TestWorld.red_world (client_input TestWorld.photo_job))
      "dominantColors" = inr (VList (map dominant_entry top)) /\
    In ((224, 0, 0), 2500) (top ++ rest) /\
    (1 <= List.length top <= 5)%nat /\
    sum_of (map snd top) <= 2500 /\
    sum_of (map (fun kc => tenths (snd kc)) top) <= 1002.
Proof.
  destruct (dominant_colors_spec TestWorld.red_world
              (client_input TestWorld.photo_job)
              (TestWorld.solid (255, 0, 0)) eq_refl eq_refl)
    as [top [rest [Hd [_ [_ [Hin [_ [_ [Hl [_ [_ [Hs [_ Ht]]]]]]]]]]]]].
  exists top, rest. split; [exact Hd |].
  split; [apply Hin; split; [vm_compute; reflexivity | lia] |].
  repeat split; assumption || lia.
Defined.

(** The bound of 1002 tenths is reached, and the binary64 sum of the
    emitted percentages can then differ from the decimal sum: buckets of
    514, 514, 499, 489 and 484 samples give 20.6, 20.6, 20.0, 19.6 and
    19.4, whose decimals add up to 100.2 and whose binary64 sum is
    100.20000000000002. *)
Example percentages_rounding_error :
  let result := analyze_colors (TestWorld.grid_world Notions.rounding_pixels)
                  (client_input TestWorld.photo_job) in
  percentages result = [20.6; 20.6; 20.0; 19.6; 19.4]%float /\
  map (fun kc => tenths (snd kc)) (firstn 5 (sorted_colors Notions.rounding_pixels)) =
    [206; 206; 200; 196; 194] /\
  float_sum (percentages result) = 100.20000000000002%float /\
  PrimFloat.ltb 100.2 (float_sum (percentages result)) = true.
Proof. vm_compute. repeat split. Qed.

(** *** Query endpoint: listing *)

Lemma ascii_compare_lt_trans (a b c : ascii) :
  Ascii.compare a b = Lt -> Ascii.compare b c = Lt -> Ascii.compare a c = Lt.
Proof.
  unfold Ascii.compare. rewrite !N.compare_lt_iff. apply N.lt_trans.
Qed.

Lemma string_compare_lt_trans (a b c : string) :
  String.compare a b = Lt -> String.compare b c = Lt -> String.compare a c = Lt.
Proof.
  revert b c. induction a as [| x a IH]; intros [| y b] [| z c]; simpl;
    try discriminate; try reflexivity.
  destruct (Ascii.compare x y) eqn:Hxy; try discriminate.
  - apply Ascii.compare_eq_iff in Hxy. subst y.
    destruct (Ascii.compare x z); try discriminate; [apply IH | reflexivity].
  - intros _. destruct (Ascii.compare y z) eqn:Hyz; try discriminate.
    + apply Ascii.compare_eq_iff in Hyz. subst z. rewrite Hxy. reflexivity.
    + rewrite (ascii_compare_lt_trans x y z Hxy Hyz). reflexivity.
Qed.

Lemma string_ltb_asym (a b : string) :
  String.ltb a b = true -> String.ltb b a = false.
Proof.
  unfold String.ltb. rewrite (String.compare_antisym b a).
  destruct (String.compare a b); simpl; congruence.
Qed.

Lemma string_geb_trans (a b c : string) :
  String.ltb a b = false -> String.ltb b c = false -> String.ltb a c = false.
Proof.
  unfold String.ltb. intros Hab Hbc.
  destruct (String.compare a c) eqn:Hac; try reflexivity. exfalso.
  destruct (String.compare a b) eqn:Cab; try discriminate.
  - apply String.compare_eq_iff in Cab. subst b. rewrite Hac in Hbc. discriminate.
  - assert (Hba : String.compare b a = Lt)
      by (rewrite String.compare_antisym, Cab; reflexivity).
    rewrite (string_compare_lt_trans b a c Hba Hac) in Hbc. discriminate.
Qed.

Lemma mapM_listing (W : World) (entities : list entity) :
  (forall e, In e entities -> exists s, json_loads W (Summary e) = inr s) ->
  exists rows,
    mapM (listing_of_entity W) entities = inr rows /\
    Forall2 (fun e row => exists s, json_loads W (Summary e) = inr s /\
                                    row = listing_row e s /\
                                    analyzedAt_key row = AnalyzedAt e)
            entities rows.
Proof.
  induction entities as [| e entities IH]; intros Hall; simpl.
  - exists []. split; [reflexivity | constructor].
  - destruct (Hall e (or_introl eq_refl)) as [s Hs].
    destruct IH as [rows [Hrows Hf]]; [intros e' He'; apply Hall; right; exact He' |].
    exists (listing_row e s :: rows). unfold listing_of_entity at 1.
    rewrite Hs. simpl. rewrite Hrows. split; [reflexivity |].
    constructor; [| exact Hf]. exists s. repeat split; assumption.
Qed.

(** C9, as stated, fails for a negative limit: with [limit=-1] and five
    stored records the endpoint returns four of them. *)
Lemma negative_limit_counterexample :
  requested_limit (TestWorld.list_request (Some "-1")) = inr (-1) /\
  exists results,
    list_results TestWorld.red_world TestWorld.five_records (-1) = inr results /\
    get_results TestWorld.red_world TestWorld.five_records
      (TestWorld.list_request (Some "-1")) =
      listing_response TestWorld.red_world results /\
    List.length results = 4%nat /\
    ~ (Z.of_nat (List.length results) <= -1).
Proof.
  split; [reflexivity |]. eexists. split; [vm_compute; reflexivity |].
  split; [reflexivity |]. split; [reflexivity |]. simpl. lia.
Qed.

(** C9, amended. For a table that can be reached, whose stored
    summaries parse, and a limit [N >= 0] (10 when the request gives
    none), the list endpoint answers 200 with one row
    [{id, fileName, analyzedAt, summary}] per returned record; the rows
    returned are the first [min N (number of records)] of the records
    ordered by analyzedAt descending, so none of them is older than a
    row that follows it or that was left out; and count is the number of
    rows returned. *)
Theorem list_results_spec (W : World) (t : Table) (req : HttpRequest) (limit : Z) :
  get_table_client W = inr tt ->
  lookup "id" (route_params req) = None \/
  lookup "id" (route_params req) = Some "" ->
  requested_limit req = inr limit ->
  0 <= limit ->
  (forall e, In e (query_entities t PARTITION_KEY) ->
             exists s, json_loads W (Summary e) = inr s) ->
  exists rows results rest,
    Forall2 (fun e row => exists s, json_loads W (Summary e) = inr s /\
                                    row = listing_row e s /\
                                    analyzedAt_key row = AnalyzedAt e)
            (query_entities t PARTITION_KEY) rows /\
    get_results W t req = listing_response W results /\
    Permutation (results ++ rest) rows /\
    StronglySorted not_older (results ++ rest) /\
    List.length results = Nat.min (Z.to_nat limit) (List.length rows) /\
    (lookup "limit" (params req) = None -> limit = 10).
Proof.
  intros Hc Hid Hlimit Hpos Hparse.
  destruct (mapM_listing W _ Hparse) as [rows [Hrows Hf]].
  set (sorted := sorted_desc String.ltb analyzedAt_key rows).
  exists rows, (firstn (Z.to_nat limit) sorted), (skipn (Z.to_nat limit) sorted).
  split; [exact Hf |].
  assert (Hslice : slice_to sorted limit = firstn (Z.to_nat limit) sorted).
  { unfold slice_to. destruct (limit <? 0) eqn:Hl; [| reflexivity].
    apply Z.ltb_lt in Hl. lia. }
  split; [| split; [| split; [| split]]].
  - unfold get_results, get_results_body. rewrite (bind_inr _ _ _ Hc).
    assert (Hbody :
      (limit <- requested_limit req ;;
       results <- list_results W t limit ;;
       ret {| body := json_dumps W (Some 2)
                        (VDict [("count", VInt (Z.of_nat (List.length results)));
                                ("results", VList results)]);
              mimetype := "application/json";
              status_code := 200 |})
      = inr (listing_response W (firstn (Z.to_nat limit) sorted))).
    { rewrite (bind_inr _ _ _ Hlimit). unfold list_results.
      rewrite (bind_inr _ _ _ Hrows). fold sorted. rewrite Hslice. reflexivity. }
    destruct Hid as [-> | ->]; rewrite Hbody; reflexivity.
  - rewrite firstn_skipn. apply sorted_desc_perm.
  - rewrite firstn_skipn.
    apply (sorted_desc_sorted String.ltb analyzedAt_key
             string_ltb_asym string_geb_trans).
  - rewrite length_firstn. f_equal.
    apply Permutation_length. apply sorted_desc_perm.
  - intros Hnone. unfold requested_limit in Hlimit. rewrite Hnone in Hlimit.
    vm_compute in Hlimit. congruence.
Qed.

Lemma list_results_spec_witness :
  exists rows results rest,
    get_results TestWorld.red_world TestWorld.five_records
      (TestWorld.list_request (Some "2")) =
      listing_response TestWorld.red_world results /\
    Permutation (results ++ rest) rows /\
    StronglySorted not_older (results ++ rest) /\
    List.length results = 2%nat /\
    List.length rows = 5%nat /\
    list_results TestWorld.red_world TestWorld.five_records 2 =
      inr [listing_row (TestWorld.stored "b" "2024-03-05T08:30:00.120000") (VDict []);
           listing_row (TestWorld.stored "d" "2024-03-04T00:00:00") (VDict [])].
Proof.
  destruct (list_results_spec TestWorld.red_world TestWorld.five_records
              (TestWorld.list_request (Some "2")) 2)
    as [rows [results [rest [Hf [Hr [Hp [Hs [Hl _]]]]]]]].
  - reflexivity.
  - left. reflexivity.
  - reflexivity.
  - lia.
  - intros e He. exists (VDict []).
    repeat (destruct He as [<- | He]; [reflexivity |]). destruct He.
  - exists rows, results, rest.
    assert (Hrows : List.length rows = 5%nat)
      by (rewrite <- (Forall2_length Hf); reflexivity).
    rewrite Hrows in Hl.
    repeat split; assumption || reflexivity.
Defined.

(** *** Orchestration *)

Section RuntimeFacts.
Context {S : Type}.
Variable activity : string -> value -> S -> result value * S.

(** The completions of a schedule of existing children: a prefix of the
    schedule, cut after the first failure, if any. *)
Lemma complete_spec (tasks : list (string * value)) (order : list nat) (s : S) :
  (forall i, In i order -> (i < List.length tasks)%nat) ->
  exists done s1 later,
    complete activity tasks order s = (done, s1) /\
    order = map (fun d => fst (fst d)) done ++ later /\
    (forall i name r, In (i, name, r) done ->
                      exists input, nth_error tasks i = Some (name, input)) /\
    (first_error done = None -> later = []) /\
    (forall i name e, In (i, name, inl e) done -> first_error done = Some e).
Proof.
  revert s. induction order as [| i order IH]; intros s Hok; simpl.
  - exists [], s, []. repeat split; try reflexivity; intros i name r [].
  - destruct (nth_error tasks i) as [[name input] |] eqn:Hn.
    + destruct (activity name input s) as [[e | v] s1].
      * exists [(i, name, inl e)], s1, order. repeat split.
        -- intros i' name' r' [H | []]. injection H as <- <- <-.
           exists input. exact Hn.
        -- discriminate.
        -- intros i' name' e' [H | []]. injection H as _ _ <-. reflexivity.
      * destruct (IH s1) as [done [s2 [later [Hc [Hm [Hd [Hnone Hfail]]]]]]];
          [intros k Hk; apply Hok; right; exact Hk |].
        rewrite Hc. exists ((i, name, inr v) :: done), s2, later.
        split; [reflexivity |]. split; [simpl; f_equal; exact Hm |].
        split; [| split].
        -- intros i' name' r' [H | H].
           ++ injection H as <- <- <-. exists input. exact Hn.
           ++ exact (Hd i' name' r' H).
        -- exact Hnone.
        -- intros i' name' e' [H | H]; [discriminate H |].
           exact (Hfail i' name' e' H).
    + exfalso. apply nth_error_None in Hn.
      specialize (Hok i (or_introl eq_refl)). lia.
Qed.

Lemma outcome_of_in (done : list (nat * string * result value)) (i : nat) :
  In i (map (fun d => fst (fst d)) done) ->
  exists name r, outcome_of done i = Some r /\ In (i, name, r) done.
Proof.
  intros Hin. unfold outcome_of.
  destruct (find (fun d => Nat.eqb (fst (fst d)) i) done) as [[[i' name] r] |] eqn:Hf.
  - apply find_some in Hf. destruct Hf as [Hd Hi]. simpl in Hi.
    apply Nat.eqb_eq in Hi. subst i'. exists name, r. split; [reflexivity | exact Hd].
  - exfalso. apply in_map_iff in Hin. destruct Hin as [d [Hi Hd]].
    pose proof (find_none _ _ Hf d Hd) as Hn. simpl in Hn.
    rewrite Hi, Nat.eqb_refl in Hn. discriminate Hn.
Qed.

Lemma outcome_of_absent (done : list (nat * string * result value)) (i : nat) :
  ~ In i (map (fun d => fst (fst d)) done) -> outcome_of done i = None.
Proof.
  intros Hnot. unfold outcome_of.
  destruct (find (fun d => Nat.eqb (fst (fst d)) i) done) as [d |] eqn:Hf;
    [| reflexivity].
  exfalso. apply find_some in Hf. destruct Hf as [Hd Hi].
  apply Nat.eqb_eq in Hi. apply Hnot. apply in_map_iff. exists d. split; assumption.
Qed.

Lemma first_error_none (done : list (nat * string * result value)) :
  first_error done = None <->
  (forall i name r, In (i, name, r) done -> exists v, r = inr v).
Proof.
  unfold first_error.
  match goal with
  | |- context [find ?failed done] =>
      destruct (find failed done) as [[[i' name'] [e | v]] |] eqn:Hf
  end.
  - split; [discriminate |]. intros H.
    apply find_some in Hf. destruct Hf as [Hin _].
    destruct (H _ _ _ Hin) as [v Hv]. discriminate Hv.
  - apply find_some in Hf. destruct Hf as [_ Hf]. discriminate Hf.
  - split; [| reflexivity]. intros _ i name r Hin.
    pose proof (find_none _ _ Hf _ Hin) as Hn. simpl in Hn.
    destruct r as [e | v]; [discriminate Hn | exists v; reflexivity].
Qed.

Lemma run_task_all (order : list nat) (tasks : list (string * value))
    (resume : result value -> Generator) (s s1 : S)
    (done : list (nat * string * result value)) (r : result value) :
  complete activity tasks order s = (done, s1) ->
  join (List.length tasks) done = Some r ->
  run activity order (Yield (task_all tasks) resume) s =
    let '(o, trace, s2) := run activity order (resume r) s1 in
    (o, map (fun t => Scheduled (fst t) (snd t)) tasks ++ map completed done ++ trace, s2).
Proof. intros Hc Hj. simpl. rewrite Hc, Hj. reflexivity. Qed.

Lemma run_task_all_pending (order : list nat) (tasks : list (string * value))
    (resume : result value -> Generator) (s s1 : S)
    (done : list (nat * string * result value)) :
  complete activity tasks order s = (done, s1) ->
  join (List.length tasks) done = None ->
  run activity order (Yield (task_all tasks) resume) s =
    (Pending, map (fun t => Scheduled (fst t) (snd t)) tasks ++ map completed done, s1).
Proof. intros Hc Hj. simpl. rewrite Hc, Hj. reflexivity. Qed.

Lemma run_call_activity (order : list nat) (name : string) (input : value)
    (resume : result value -> Generator) (s s1 : S) (r : result value) :
  activity name input s = (r, s1) ->
  run activity order (Yield (call_activity name input) resume) s =
    let '(o, trace, s2) := run activity order (resume r) s1 in
    (o, Scheduled name input :: Completed name r :: trace, s2).
Proof. intros Ha. simpl. rewrite Ha. reflexivity. Qed.

(** C1. For every job and every schedule of distinct analyzer
    activities that have completed so far, the run of the orchestrator
    first schedules the four analyzers on the job's input, and nothing
    else happens before the barrier releases.  If a completed analyzer
    raised, the job fails with that exception and nothing is scheduled
    after the analyzers.  If none raised but one of the four has not
    completed, the job is pending: it waits, with nothing scheduled after
    the analyzers.  If all four completed without raising,
    [generate_report] is scheduled once on the four results in task
    order and, if it returns a report, [store_results] once on that
    report; the job's outcome is the stored record, or the failure of
    whichever of the two raised. *)
Theorem orchestrator_fan_in_then_chain (j : Job) (order : list nat) (s : S) :
  NoDup order ->
  (forall i, In i order -> (i < 4)%nat) ->
  let input := client_input j in
  let go := run activity order (image_analyzer_orchestrator input) s in
  exists done s1 later,
    complete activity (analysis_tasks input) order s = (done, s1) /\
    order = map (fun d => fst (fst d)) done ++ later /\
    (forall i name r,
        In (i, name, r) done ->
        nth_error (analysis_tasks input) i = Some (name, input)) /\
    let fan :=
      [Scheduled "analyze_colors" input; Scheduled "analyze_objects" input;
       Scheduled "analyze_text" input; Scheduled "analyze_metadata" input]
      ++ map completed done in
    (forall i name e, In (i, name, inl e) done -> go = (Failed e, fan, s1)) /\
    ((forall i name r, In (i, name, r) done -> exists v, r = inr v) ->
     later = [] /\
     ((exists i, (i < 4)%nat /\ ~ In i order) -> go = (Pending, fan, s1)) /\
     ((forall i, (i < 4)%nat -> In i order) ->
      exists colors objects text metadata,
        outcome_of done 0 = Some (inr colors) /\
        outcome_of done 1 = Some (inr objects) /\
        outcome_of done 2 = Some (inr text) /\
        outcome_of done 3 = Some (inr metadata) /\
        let report_data :=
          VDict [("blob_name", VStr (blob_name j)); ("colors", colors);
                 ("objects", objects); ("text", text); ("metadata", metadata)] in
        match activity "generate_report" report_data s1 with
        | (inl e, s2) =>
            go = (Failed e,
                  fan ++ [Scheduled "generate_report" report_data;
                          Completed "generate_report" (inl e)],
                  s2)
        | (inr report, s2) =>
            let '(r, s3) := activity "store_results" report s2 in
            go = (match r with
                  | inl e => Failed e
                  | inr record => Succeeded record
                  end,
                  fan ++ [Scheduled "generate_report" report_data;
                          Completed "generate_report" (inr report);
                          Scheduled "store_results" report;
                          Completed "store_results" r],
                  s3)
        end)).
Proof.
  intros _ Hlt input go.
  destruct (complete_spec (analysis_tasks input) order s)
    as [done [s1 [later [Hc [Hm [Hd [Hnone Hfail]]]]]]].
  { intros i Hi. simpl. exact (Hlt i Hi). }
  exists done, s1, later. split; [exact Hc |]. split; [exact Hm |].
  assert (Htask : forall i name r, In (i, name, r) done ->
            nth_error (analysis_tasks input) i = Some (name, input)).
  { intros i name r Hin. destruct (Hd i name r Hin) as [input' Hn].
    rewrite Hn. f_equal. f_equal.
    do 4 (destruct i as [| i]; [simpl in Hn; congruence |]).
    destruct i; discriminate Hn. }
  split; [exact Htask |]. intros fan. split.
  - intros i name e Hin. pose proof (Hfail i name e Hin) as Hfe.
    assert (Hjoin : join (List.length (analysis_tasks input)) done = Some (inl e)).
    { unfold join. rewrite Hfe. reflexivity. }
    unfold go, image_analyzer_orchestrator, yield_.
    rewrite (run_task_all _ _ _ _ _ _ _ Hc Hjoin).
    simpl. unfold fan. rewrite app_nil_r. reflexivity.
  - intros Hall.
    pose proof (proj2 (first_error_none done) Hall) as Hfe.
    pose proof (Hnone Hfe) as Hlater. split; [exact Hlater |].
    rewrite Hlater, app_nil_r in Hm. split.
    + intros [i [Hi Hnot]].
      assert (Hjoin : join (List.length (analysis_tasks input)) done = None).
      { unfold join. rewrite Hfe.
        destruct (forallb _ (seq 0 (List.length (analysis_tasks input)))) eqn:Hf;
          [| reflexivity].
        exfalso. rewrite forallb_forall in Hf.
        specialize (Hf i ltac:(apply in_seq; simpl; lia)).
        rewrite outcome_of_absent in Hf; [discriminate Hf |].
        rewrite <- Hm. exact Hnot. }
      unfold go, image_analyzer_orchestrator, yield_.
      rewrite (run_task_all_pending _ _ _ _ _ _ Hc Hjoin). reflexivity.
    + intros Hfull.
      assert (Hout : forall i, (i < 4)%nat ->
                exists name r, outcome_of done i = Some r /\ In (i, name, r) done).
      { intros i Hi. apply outcome_of_in. rewrite <- Hm. exact (Hfull i Hi). }
      destruct (Hout 0%nat) as [n0 [r0 [H0 I0]]]; [lia |].
      destruct (Hout 1%nat) as [n1 [r1 [H1 I1]]]; [lia |].
      destruct (Hout 2%nat) as [n2 [r2 [H2 I2]]]; [lia |].
      destruct (Hout 3%nat) as [n3 [r3 [H3 I3]]]; [lia |].
      destruct (Hall _ _ _ I0) as [colors ->], (Hall _ _ _ I1) as [objects ->],
        (Hall _ _ _ I2) as [text ->], (Hall _ _ _ I3) as [metadata ->].
      exists colors, objects, text, metadata.
      repeat (split; [assumption |]).
      intros report_data.
      assert (Hjoin : join (List.length (analysis_tasks input)) done =
                      Some (inr (VList [colors; objects; text; metadata]))).
      { unfold join. rewrite Hfe. simpl forallb. rewrite H0, H1, H2, H3. simpl.
        unfold value_of. rewrite H0, H1, H2, H3. reflexivity. }
      assert (Hgo : go =
        let '(o, trace, s2) :=
          run activity order
            (yield_ (call_activity "generate_report" report_data) (fun report =>
               yield_ (call_activity "store_results" report) (fun record =>
                 Return record))) s1 in
        (o, fan ++ trace, s2)).
      { unfold go, image_analyzer_orchestrator. unfold yield_ at 1.
        rewrite (run_task_all _ _ _ _ _ _ _ Hc Hjoin).
        cbv beta iota.
        change (report_input input (VList [colors; objects; text; metadata]))
          with (@inr exn value report_data).
        cbv beta iota.
        destruct (run activity order _ s1) as [[o trace] s2].
        unfold fan. rewrite <- app_assoc. reflexivity. }
      rewrite Hgo. unfold yield_.
      destruct (activity "generate_report" report_data s1) as [[e | report] s2] eqn:Hg.
      * rewrite (run_call_activity _ _ _ _ _ _ _ Hg). reflexivity.
      * destruct (activity "store_results" report s2) as [r s3] eqn:Hst.
        rewrite (run_call_activity _ _ _ _ _ _ _ Hg).
        rewrite (run_call_activity _ _ _ _ _ _ _ Hst).
        destruct r as [e | record]; reflexivity.
Qed.
End RuntimeFacts.

Lemma schedule_2031 : Permutation [2; 0; 3; 1]%nat [0; 1; 2; 3]%nat.
Proof.
  apply (Permutation_cons_app [0; 1]%nat [3]%nat 2%nat). simpl.
  apply perm_skip. apply perm_swap.
Defined.

Lemma orchestrator_fan_in_then_chain_witness :
  let activity := activities TestWorld.red_world "id-1" "2024-03-01T10:00:00" in
  let faulty := TestWorld.faulty_activities TestWorld.red_world "id-1"
                  "2024-03-01T10:00:00" in
  let input := client_input TestWorld.photo_job in
  (* all four complete: the chain runs *)
  fst (fst (run activity [2; 0; 3; 1]%nat (image_analyzer_orchestrator input) [])) =
    Succeeded (VDict [("id", VStr "id-1"); ("fileName", VStr "photo.png");
                      ("status", VStr "stored");
                      ("analyzedAt", VStr "2024-03-01T10:00:00")]) /\
  (* two of them are still running: the job waits *)
  (exists done,
      run activity [2; 0]%nat (image_analyzer_orchestrator input) [] =
        (Pending,
         [Scheduled "analyze_colors" input; Scheduled "analyze_objects" input;
          Scheduled "analyze_text" input; Scheduled "analyze_metadata" input]
         ++ map completed done, []) /\
      map (fun d => fst (fst d)) done = [2; 0]%nat) /\
  (* the metadata activity is lost: the job fails at once *)
  (exists done,
      run faulty [2; 3; 0; 1]%nat (image_analyzer_orchestrator input) [] =
        (Failed (LibraryError "Exception" "Activity function 'analyze_metadata' failed"),
         [Scheduled "analyze_colors" input; Scheduled "analyze_objects" input;
          Scheduled "analyze_text" input; Scheduled "analyze_metadata" input]
         ++ map completed done, []) /\
      map (fun d => fst (fst d)) done = [2; 3]%nat).
Proof.
  intros activity faulty input. split; [| split].
  - destruct (orchestrator_fan_in_then_chain activity TestWorld.photo_job
                [2; 0; 3; 1]%nat [])
      as [done [s1 [later [Hc [Hm [_ [_ Hok]]]]]]].
    + repeat constructor; simpl; intuition discriminate.
    + intros i Hi. simpl in Hi. lia.
    + vm_compute in Hc. injection Hc as <- <-.
      destruct Hok as [_ [_ Hchain]].
      * intros i name r Hin. simpl in Hin.
        repeat (destruct Hin as [Hin | Hin];
                [injection Hin as _ _ <-; eexists; reflexivity |]).
        destruct Hin.
      * destruct Hchain as [colors [objects [text [metadata [_ [_ [_ [_ Hgo]]]]]]]].
        -- intros i Hi. simpl. lia.
        -- vm_compute. reflexivity.
  - destruct (orchestrator_fan_in_then_chain activity TestWorld.photo_job
                [2; 0]%nat [])
      as [done [s1 [later [Hc [Hm [_ [_ Hok]]]]]]].
    + repeat constructor; simpl; intuition discriminate.
    + intros i Hi. simpl in Hi. lia.
    + vm_compute in Hc. injection Hc as <- <-.
      destruct Hok as [_ [Hpending _]].
      * intros i name r Hin. simpl in Hin.
        repeat (destruct Hin as [Hin | Hin];
                [injection Hin as _ _ <-; eexists; reflexivity |]).
        destruct Hin.
      * eexists. split; [apply Hpending | reflexivity].
        exists 1%nat. split; [lia |]. simpl. intuition discriminate.
  - destruct (orchestrator_fan_in_then_chain faulty TestWorld.photo_job
                [2; 3; 0; 1]%nat [])
      as [done [s1 [later [Hc [Hm [_ [Hfail _]]]]]]].
    + repeat constructor; simpl; intuition discriminate.
    + intros i Hi. simpl in Hi. lia.
    + vm_compute in Hc. injection Hc as <- <-.
      refine (ex_intro _ _ (conj (Hfail 3%nat "analyze_metadata" _ _) eq_refl)).
      right. left. reflexivity.
Defined.

(** A fault that escapes an analyzer: the job fails as soon as that
    activity has failed; no report is built and the table is
    untouched. *)
Example orchestrator_analyzer_fault :
  let activity := TestWorld.faulty_activities TestWorld.red_world "id-1"
                    "2024-03-01T10:00:00" in
  let input := client_input TestWorld.photo_job in
  let '(o, trace, table) :=
    run activity [2; 0; 3; 1]%nat (image_analyzer_orchestrator input) [] in
  o = Failed (LibraryError "Exception" "Activity function 'analyze_metadata' failed") /\
  map (fun ev => match ev with
                 | Scheduled name _ => ("scheduled", name)
                 | Completed name _ => ("completed", name)
                 end) trace =
    [("scheduled", "analyze_colors"); ("scheduled", "analyze_objects");
     ("scheduled", "analyze_text"); ("scheduled", "analyze_metadata");
     ("completed", "analyze_text"); ("completed", "analyze_colors");
     ("completed", "analyze_metadata")] /\
  table = [].
Proof. vm_compute. repeat split. Qed.

(** Scenario C of the specification: the blob is missing, the analyzers
    return error-flagged results, and the job still stores a report
    whose summary reads 0x0. *)
Example orchestrator_missing_blob :
  let activity := activities TestWorld.red_world "id-2" "2024-03-02T09:00:00" in
  let input := client_input TestWorld.missing_job in
  exists trace table report,
    run activity [0; 1; 2; 3]%nat (image_analyzer_orchestrator input) [] =
      (Succeeded (VDict [("id", VStr "id-2"); ("fileName", VStr "missing.png");
                         ("status", VStr "stored");
                         ("analyzedAt", VStr "2024-03-02T09:00:00")]),
       trace, table) /\
    List.length table = 1%nat /\
    In (Scheduled "store_results" report) trace /\
    (summary <- getitem report "summary" ;; getitem summary "imageSize") =
      inr (VStr "0x0").
Proof.
  do 3 eexists. split; [vm_compute; reflexivity |].
  split; [reflexivity |]. split.
  - do 10 right. left. reflexivity.
  - reflexivity.
Qed.

(** *** Sanity checks of the builtins and the scenarios of the
    specification *)

Example truediv_is_binary64_division :
  truediv 5000 1000000 = inr (5000 / 1000000)%float /\
  truediv 1 3 = inr (1 / 3)%float /\
  truediv 2250 2500 = inr 0.9%float /\
  truediv 7 0 = inl (ZeroDivisionError "division by zero").
Proof. repeat split. Qed.

Example round_follows_the_binary_value :
  round 0.005 2 = 0.01%float /\ round 0.015 2 = 0.01%float /\
  round 2.675 2 = 2.67%float /\ round 20.16 1 = 20.2%float /\
  round 0.04 1 = 0%float /\ round (-0.25) 1 = (-0.2)%float.
Proof. repeat split. Qed.

Example int_of_string_examples :
  int_of_string "10" = inr 10 /\ int_of_string " -1 " = inr (-1) /\
  int_of_string "1_000" = inr 1000 /\
  int_of_string "ten" = inl (ValueError "invalid literal for int() with base 10: 'ten'").
Proof. repeat split. Qed.

Example sorted_desc_is_stable :
  sorted_desc Z.ltb snd [("a", 1); ("b", 3); ("c", 1); ("d", 3); ("e", 2)] =
    [("b", 3); ("d", 3); ("e", 2); ("a", 1); ("c", 1)].
Proof. reflexivity. Qed.

(** Scenario A: a 100 x 50 solid red image. *)
Example scenario_solid_red :
  let job := client_input TestWorld.photo_job in
  analyze_colors TestWorld.red_world job =
    VDict [("dominantColors",
            VList [VDict [("hex", VStr "#e00000");
                          ("rgb", VDict [("r", VInt 224); ("g", VInt 0); ("b", VInt 0)]);
                          ("percentage", VFloat 100)]]);
           ("isGrayscale", VBool false); ("totalPixelsSampled", VInt 2500)] /\
  (objects <- getitem (analyze_objects TestWorld.red_world job) "objects" ;;
   index objects 0) = inr (tag "landscape" 0.85) /\
  getitem (analyze_metadata TestWorld.red_world job) "megapixels" =
    inr (VFloat 0.01).
Proof. vm_compute. repeat split. Qed.

(** Scenario B: a pure white image. *)
Example scenario_pure_white :
  let W := TestWorld.world
             {| TestWorld.ti_mode := "RGB"; TestWorld.ti_size := (10, 10);
                TestWorld.ti_format := Some "PNG";
                TestWorld.ti_data := repeat (255, 255, 255) 100 |}
             (TestWorld.solid (255, 255, 255)) in
  let job := client_input TestWorld.photo_job in
  percentages (analyze_colors W job) = [100%float] /\
  getitem (analyze_colors W job) "isGrayscale" = inr (VBool true) /\
  (objects <- getitem (analyze_objects W job) "objects" ;; index objects 0) =
    inr (tag "square composition" 0.90).
Proof. vm_compute. repeat split. Qed.


(* ================================================================= *)
(** ** Further properties of the code *)

Import Notions.

(** *** Blob paths and configuration *)




(** X2. Without the [ImageStorageConnection] setting nothing is
    fetched: for an input naming a blob, the three fetching analyzers
    return their error results with the text of the [KeyError], storing a
    report that has a file name raises that [KeyError], and the query
    endpoint answers 500 with it. *)
Theorem missing_connection_string (W : World) (d : list (string * value))
    (name : value) :
  environ W "ImageStorageConnection" = None ->
  lookup "blob_name" d = Some name ->
  let e := KeyError "ImageStorageConnection" in
  analyze_colors W (VDict d) = colors_error e /\
  analyze_objects W (VDict d) = objects_error e /\
  analyze_metadata W (VDict d) = metadata_error e /\
  (forall report file_name t,
      lookup "fileName" report = Some file_name ->
      store_results W (VDict report) t = inl e) /\
  (forall t req, get_results W t req = error_response W e).
Proof.
  intros Henv Hname e.
  assert (Hdl : download_blob_bytes W name = inl e).
  { unfold download_blob_bytes, environ_getitem. rewrite Henv. reflexivity. }
  assert (Hopen : open_image W (VDict d) = inl e).
  { unfold open_image, getitem. rewrite Hname. simpl bind. rewrite Hdl. reflexivity. }
  assert (Htc : get_table_client W = inl e).
  { unfold get_table_client, environ_getitem. rewrite Henv. reflexivity. }
  repeat split.
  - unfold analyze_colors, analyze_colors_body, sample_pixels, getitem.
    rewrite Hname. simpl bind. rewrite Hdl. reflexivity.
  - unfold analyze_objects, analyze_objects_body. rewrite Hopen. reflexivity.
  - unfold analyze_metadata, analyze_metadata_body. rewrite Hopen. reflexivity.
  - intros report file_name t Hf. unfold store_results, getitem.
    rewrite Hf. simpl bind. rewrite Htc. reflexivity.
  - intros t req. unfold get_results, get_results_body. rewrite Htc. reflexivity.
Qed.

Lemma missing_connection_string_witness :
  analyze_colors unconfigured_world (client_input TestWorld.photo_job) =
    VDict [("dominantColors", VList []); ("isGrayscale", VBool false);
           ("totalPixelsSampled", VInt 0);
           ("error", VStr "'ImageStorageConnection'")] /\
  status_code (get_results unconfigured_world TestWorld.five_records
                 (TestWorld.list_request None)) = 500.
Proof.
  destruct (missing_connection_string unconfigured_world
              [("blob_name", VStr "images/photo.png"); ("blob_size_kb", VFloat 1.25)]
              (VStr "images/photo.png") eq_refl eq_refl)
    as [Hc [_ [_ [_ Hq]]]].
  split; [exact Hc |]. rewrite Hq. reflexivity.
Defined.

(** *** Quantisation and the hex encoding *)

(** X3. Quantising an 8-bit channel floors it to a multiple of 32: each
    channel of the bucket is one of 0, 32, ..., 224, is at most the
    channel it comes from and less than 32 below it; and a bucket is its
    own bucket. *)
Theorem bucket_quantises (r g b : Z) :
  0 <= r < 256 -> 0 <= g < 256 -> 0 <= b < 256 ->
  exists r' g' b',
    bucket (r, g, b) = (r', g', b') /\
    In r' [0; 32; 64; 96; 128; 160; 192; 224] /\
    In g' [0; 32; 64; 96; 128; 160; 192; 224] /\
    In b' [0; 32; 64; 96; 128; 160; 192; 224] /\
    r' <= r < r' + 32 /\ g' <= g < g' + 32 /\ b' <= b < b' + 32 /\
    bucket (r', g', b') = (r', g', b').
Proof.
  assert (Hlevel : forall x, 0 <= x < 256 ->
            In (x / 32 * 32) [0; 32; 64; 96; 128; 160; 192; 224] /\
            x / 32 * 32 <= x < x / 32 * 32 + 32 /\
            x / 32 * 32 / 32 * 32 = x / 32 * 32).
  { intros x Hx.
    pose proof (Z.div_mod x 32 ltac:(lia)) as Hdm.
    pose proof (Z.mod_pos_bound x 32 ltac:(lia)) as Hm.
    assert (Hq : 0 <= x / 32 <= 7) by lia.
    split; [| split; [lia |]].
    - assert (Hc : x / 32 = 0 \/ x / 32 = 1 \/ x / 32 = 2 \/ x / 32 = 3 \/
                   x / 32 = 4 \/ x / 32 = 5 \/ x / 32 = 6 \/ x / 32 = 7) by lia.
      simpl. destruct Hc as [H | [H | [H | [H | [H | [H | [H | H]]]]]]];
        rewrite H; simpl; tauto.
    - rewrite Z.div_mul by lia. reflexivity. }
  intros Hr Hg Hb.
  destruct (Hlevel r Hr) as [Ir [Br Er]], (Hlevel g Hg) as [Ig [Bg Eg]],
    (Hlevel b Hb) as [Ib [Bb Eb]].
  exists (r / 32 * 32), (g / 32 * 32), (b / 32 * 32).
  split; [reflexivity |].
  repeat (split; [assumption |]).
  unfold bucket. rewrite Er, Eg, Eb. reflexivity.
Qed.

Lemma bucket_quantises_witness :
  exists r' g' b',
    bucket (255, 40, 7) = (r', g', b') /\ r' = 224 /\ g' = 32 /\ b' = 0.
Proof.
  destruct (bucket_quantises 255 40 7 ltac:(lia) ltac:(lia) ltac:(lia))
    as [r' [g' [b' [Hb _]]]].
  exists r', g', b'. split; [exact Hb |].
  vm_compute in Hb. injection Hb as <- <- <-. repeat split.
Defined.

Lemma hex_check_all : forallb hex_check (map Z.of_nat (seq 0 256)) = true.
Proof. vm_compute. reflexivity. Qed.

Lemma format_02x_two_digits (n : Z) :
  0 <= n < 256 ->
  exists a b, format_02x n = String a (String b EmptyString) /\
              decode_02x (String a (String b EmptyString)) = Some n.
Proof.
  intros Hn.
  pose proof (upto_forallb _ 0 256 hex_check_all n ltac:(lia)) as H.
  unfold hex_check in H.
  destruct (format_02x n) as [| a [| b [| c rest]]]; try discriminate H.
  exists a, b. split; [reflexivity |].
  destruct (decode_02x (String a (String b EmptyString))) as [m |];
    [| discriminate H].
  apply Z.eqb_eq in H. subst m. reflexivity.
Qed.

(** X4. For 8-bit channels the entry built for a bucket carries a hex
    string of 7 characters, ["#"] and two lowercase hexadecimal digits
    per channel, which reads back as the very [r], [g], [b] stored in
    the entry's [rgb] field; so distinct colors get distinct hex
    strings. *)
Theorem color_entry_hex (n r g b count : Z) (v : value) :
  0 <= r < 256 -> 0 <= g < 256 -> 0 <= b < 256 ->
  color_entry n ((r, g, b), count) = inr v ->
  exists h,
    getitem v "hex" = inr (VStr h) /\
    String.length h = 7%nat /\
    decode_hex h = Some (r, g, b) /\
    getitem v "rgb" = inr (VDict [("r", VInt r); ("g", VInt g); ("b", VInt b)]).
Proof.
  intros Hr Hg Hb Hv. unfold color_entry in Hv.
  destruct (percentage count n) as [e | pct]; simpl in Hv; [discriminate |].
  injection Hv as <-.
  destruct (format_02x_two_digits r Hr) as [r1 [r2 [Er Dr]]].
  destruct (format_02x_two_digits g Hg) as [g1 [g2 [Eg Dg]]].
  destruct (format_02x_two_digits b Hb) as [b1 [b2 [Eb Db]]].
  eexists. split; [reflexivity |].
  rewrite Er, Eg, Eb. split; [reflexivity |]. split; [| reflexivity].
  simpl String.append. unfold decode_hex. rewrite Dr, Dg, Db. reflexivity.
Qed.

Lemma color_entry_hex_witness :
  exists h,
    getitem (entry_of ((224, 0, 32), 2500) 100%float) "hex" = inr (VStr h) /\
    String.length h = 7%nat /\
    decode_hex h = Some (224, 0, 32).
Proof.
  destruct (color_entry_hex 2500 224 0 32 2500 (entry_of ((224, 0, 32), 2500) 100%float)
              ltac:(lia) ltac:(lia) ltac:(lia) eq_refl)
    as [h [Hh [Hl [Hd _]]]].
  exists h. repeat split; assumption.
Defined.

(** *** The histogram and its order *)

(** X5. After the counting loop, for any list of samples: the dict has
    one key per bucket that occurs among the samples and no other key,
    each key holds the number of samples of its bucket, which is at
    least 1, and the counts add up to the number of samples. *)
Theorem color_counts_histogram (pixels : list pixel) :
  NoDup (map fst (color_counts pixels)) /\
  (forall k, In k (map fst (color_counts pixels)) <->
             exists p, In p pixels /\ bucket p = k) /\
  (forall k c, In (k, c) (color_counts pixels) ->
               c = samples_in pixels k /\ 1 <= c) /\
  sum_of (map snd (color_counts pixels)) = Z.of_nat (List.length pixels).
Proof.
  destruct (color_counts_spec pixels) as [Hn [Hc [Hk Hs]]].
  split; [exact Hn |]. split; [| split; [exact Hc | exact Hs]].
  intros k. split.
  - intros Hin. apply in_map_iff in Hin. destruct Hin as [[k' c] [Hk' Hin]].
    simpl in Hk'. subst k'. destruct (Hc k c Hin) as [-> Hpos].
    apply samples_in_witness. exact Hpos.
  - intros [p [Hp <-]]. apply Hk, Hp.
Qed.

Lemma existsb_keys (k : pixel) (d : list (pixel * Z)) :
  existsb (fun kc => pixel_eqb (fst kc) k) d =
    existsb (fun q => pixel_eqb q k) (map fst d).
Proof. induction d as [| kc d IH]; simpl; [reflexivity | rewrite IH; reflexivity]. Qed.

Lemma fold_counts_keys (pixels : list pixel) (d : list (pixel * Z)) :
  map fst (fold_left (fun d p => dict_incr (bucket p) d) pixels d) =
    map fst d ++ first_seen (map fst d) (map bucket pixels).
Proof.
  revert d. induction pixels as [| p pixels IH]; intros d; simpl.
  - rewrite app_nil_r. reflexivity.
  - rewrite IH, dict_incr_keys, existsb_keys.
    destruct (existsb (fun q => pixel_eqb q (bucket p)) (map fst d)).
    + rewrite app_nil_r. reflexivity.
    + rewrite <- app_assoc. reflexivity.
Qed.

Section Stability.
Context {A K : Type}.
Variable ltb : K -> K -> bool.
Variable key : A -> K.
Variable sel : A -> bool.
Hypothesis sel_tied :
  forall x y, sel x = true -> sel y = true -> ltb (key x) (key y) = false.

Lemma insert_desc_filter (x : A) (l : list A) :
  filter sel (insert_desc ltb key x l) = filter sel (x :: l).
Proof.
  induction l as [| y l IH]; [reflexivity |].
  simpl insert_desc. destruct (ltb (key x) (key y)) eqn:Hxy; [| reflexivity].
  simpl filter in *. rewrite IH.
  destruct (sel x) eqn:Hx; [| reflexivity].
  destruct (sel y) eqn:Hy; [| reflexivity].
  rewrite (sel_tied x y Hx Hy) in Hxy. discriminate Hxy.
Qed.

Lemma sorted_desc_filter (l : list A) :
  filter sel (sorted_desc ltb key l) = filter sel l.
Proof.
  induction l as [| x l IH]; [reflexivity |].
  simpl sorted_desc. rewrite insert_desc_filter. simpl. rewrite IH. reflexivity.
Qed.
End Stability.

(** X6. Ties between buckets are broken by encounter order: the keys
    of the counting dict are the distinct buckets in the order of their
    first sample, and sorting by descending count keeps the buckets of
    any one count in that order. *)
Theorem sorted_colors_stable (pixels : list pixel) :
  map fst (color_counts pixels) = first_seen [] (map bucket pixels) /\
  (forall c,
      filter (fun kc => snd kc =? c) (sorted_colors pixels) =
        filter (fun kc => snd kc =? c) (color_counts pixels)).
Proof.
  split.
  - unfold color_counts. rewrite fold_counts_keys. reflexivity.
  - intros c. unfold sorted_colors. apply sorted_desc_filter.
    intros x y Hx Hy. apply Z.eqb_eq in Hx, Hy. rewrite Hx, Hy.
    apply Z.ltb_irrefl.
Qed.

(** X7. If the downsampled image has no pixel, the division by the
    number of samples raises and the Color Analyzer returns its
    zero-value result with the error "division by zero". *)
Theorem analyze_colors_no_samples (W : World) (inputData : value) :
  sample_pixels W inputData = inr [] ->
  analyze_colors W inputData =
    colors_error (ZeroDivisionError "division by zero").
Proof.
  intros Hs. unfold analyze_colors, analyze_colors_body.
  rewrite Hs. reflexivity.
Qed.

Lemma analyze_colors_no_samples_witness :
  analyze_colors (TestWorld.grid_world []) (client_input TestWorld.photo_job) =
    VDict [("dominantColors", VList []); ("isGrayscale", VBool false);
           ("totalPixelsSampled", VInt 0); ("error", VStr "division by zero")].
Proof.
  apply (analyze_colors_no_samples (TestWorld.grid_world [])
           (client_input TestWorld.photo_job)).
  reflexivity.
Defined.

(** *** Listing order *)

Lemma slice_to_firstn {A} (l : list A) (n : Z) :
  exists k, slice_to l n = firstn k l.
Proof. unfold slice_to. destruct (n <? 0); eexists; reflexivity. Qed.

(** X8. Whatever the limit, among the stored records that share one
    analyzedAt value the list endpoint returns the first ones in the
    order the table lists them: the sort is stable and the cut takes a
    prefix. *)
Theorem list_results_stable (W : World) (t : Table) (limit : Z)
    (results : list value) :
  list_results W t limit = inr results ->
  exists rows,
    mapM (listing_of_entity W) (query_entities t PARTITION_KEY) = inr rows /\
    forall a, exists omitted,
      filter (fun r => String.eqb (analyzedAt_key r) a) rows =
        filter (fun r => String.eqb (analyzedAt_key r) a) results ++ omitted.
Proof.
  unfold list_results. intros H.
  destruct (mapM (listing_of_entity W) (query_entities t PARTITION_KEY))
    as [e | rows]; simpl in H; [discriminate |].
  injection H as <-. exists rows. split; [reflexivity |]. intros a.
  destruct (slice_to_firstn (sorted_desc String.ltb analyzedAt_key rows) limit)
    as [k ->].
  exists (filter (fun r => String.eqb (analyzedAt_key r) a)
            (skipn k (sorted_desc String.ltb analyzedAt_key rows))).
  rewrite <- filter_app, firstn_skipn. symmetry. apply sorted_desc_filter.
  intros x y Hx Hy. apply String.eqb_eq in Hx, Hy. rewrite Hx, Hy.
  destruct (String.ltb a a) eqn:Hlt; [| reflexivity].
  rewrite (string_ltb_asym a a Hlt) in Hlt. discriminate Hlt.
Qed.

Lemma list_results_stable_witness :
  exists rows,
    mapM (listing_of_entity TestWorld.red_world)
      (query_entities tied_records PARTITION_KEY) = inr rows /\
    list_results TestWorld.red_world tied_records 2 =
      inr [listing_row (TestWorld.stored "b" "2024-03-05T08:30:00") (VDict []);
           listing_row (TestWorld.stored "a" "2024-03-01T10:00:00") (VDict [])] /\
    exists omitted,
      filter (fun r => String.eqb (analyzedAt_key r) "2024-03-01T10:00:00") rows =
        [listing_row (TestWorld.stored "a" "2024-03-01T10:00:00") (VDict [])]
        ++ omitted.
Proof.
  destruct (list_results_stable TestWorld.red_world tied_records 2
              [listing_row (TestWorld.stored "b" "2024-03-05T08:30:00") (VDict []);
               listing_row (TestWorld.stored "a" "2024-03-01T10:00:00") (VDict [])]
              eq_refl)
    as [rows [Hrows Hst]].
  exists rows. split; [exact Hrows |]. split; [reflexivity |].
  destruct (Hst "2024-03-01T10:00:00") as [omitted Ho].
  exists omitted. exact Ho.
Defined.

(** *** Persistence *)

Lemma same_row_refl (e : entity) : same_row (PartitionKey e) (RowKey e) e = true.
Proof. unfold same_row. rewrite !String.eqb_refl. reflexivity. Qed.

Lemma same_row_same_key (pk rk : string) (e e' : entity) :
  same_row (PartitionKey e) (RowKey e) e' = true ->
  same_row pk rk e' = same_row pk rk e.
Proof.
  unfold same_row. intros H. apply andb_true_iff in H. destruct H as [Hp Hr].
  apply String.eqb_eq in Hp, Hr. rewrite Hp, Hr. reflexivity.
Qed.

Lemma upsert_entity_find (e : entity) (t : Table) :
  find (same_row (PartitionKey e) (RowKey e)) (upsert_entity e t) = Some e.
Proof.
  induction t as [| e' t IH]; simpl.
  - rewrite same_row_refl. reflexivity.
  - destruct (same_row (PartitionKey e) (RowKey e) e') eqn:He; simpl.
    + rewrite same_row_refl. reflexivity.
    + rewrite He. exact IH.
Qed.

Lemma upsert_entity_other (pk rk : string) (e : entity) (t : Table) :
  same_row pk rk e = false ->
  find (same_row pk rk) (upsert_entity e t) = find (same_row pk rk) t.
Proof.
  intros Hne. induction t as [| e' t IH]; simpl.
  - rewrite Hne. reflexivity.
  - destruct (same_row (PartitionKey e) (RowKey e) e') eqn:He; simpl.
    + rewrite (same_row_same_key pk rk e e' He), Hne. reflexivity.
    + rewrite IH. reflexivity.
Qed.

Lemma upsert_entity_idempotent (e : entity) (t : Table) :
  upsert_entity e (upsert_entity e t) = upsert_entity e t.
Proof.
  induction t as [| e' t IH]; simpl.
  - rewrite same_row_refl. reflexivity.
  - destruct (same_row (PartitionKey e) (RowKey e) e') eqn:He; simpl.
    + rewrite same_row_refl. reflexivity.
    + rewrite He, IH. reflexivity.
Qed.

Lemma upsert_entity_length (e : entity) (t : Table) :
  (List.length t <= List.length (upsert_entity e t) <= List.length t + 1)%nat.
Proof.
  induction t as [| e' t IH]; simpl; [lia |].
  destruct (same_row (PartitionKey e) (RowKey e) e'); simpl; lia.
Qed.

(** What [store_results] does with a report of the shape
    [generate_report] builds. *)
Lemma store_results_built (W : World) (id f p a : string)
    (colors objects text metadata summary : value) (t : Table) :
  store_results W (built_report id f p a colors objects text metadata summary) t =
    match get_table_client W with
    | inl e => inl e
    | inr _ =>
        inr (acknowledgment id f a,
             upsert_entity
               (stored_entity W id f p a colors objects text metadata summary) t)
    end.
Proof.
  unfold store_results, built_report.
  destruct (get_table_client W) as [e | []]; reflexivity.
Qed.

(** X9. Storing a report acknowledges it with
    [{id, fileName, status: "stored", analyzedAt}] and leaves a table in
    which the report's id leads to the row just written, every other id
    leads to what it led to before, and at most one row was added. *)
Theorem store_results_then_get_entity (W : World) (id f p a : string)
    (colors objects text metadata summary : value) (t : Table) :
  get_table_client W = inr tt ->
  exists t',
    store_results W (built_report id f p a colors objects text metadata summary) t =
      inr (acknowledgment id f a, t') /\
    get_entity t' PARTITION_KEY id =
      inr (stored_entity W id f p a colors objects text metadata summary) /\
    (forall other, other <> id ->
                   get_entity t' PARTITION_KEY other = get_entity t PARTITION_KEY other) /\
    (List.length t <= List.length t' <= List.length t + 1)%nat.
Proof.
  intros Hc.
  set (e := stored_entity W id f p a colors objects text metadata summary).
  exists (upsert_entity e t).
  split; [rewrite store_results_built, Hc; reflexivity |].
  split; [| split].
  - pose proof (upsert_entity_find e t) as Hf.
    change (find (same_row PARTITION_KEY id) (upsert_entity e t) = Some e) in Hf.
    unfold get_entity. rewrite Hf. reflexivity.
  - intros other Hne. unfold get_entity.
    rewrite upsert_entity_other; [reflexivity |].
    unfold same_row. simpl. apply String.eqb_neq. congruence.
  - apply upsert_entity_length.
Qed.

Lemma store_results_then_get_entity_witness :
  exists t',
    store_results TestWorld.red_world empty_report TestWorld.five_records =
      inr (acknowledgment "id-7" "photo.png" "2024-03-07T12:00:00", t') /\
    (exists e, get_entity t' PARTITION_KEY "id-7" = inr e /\ RowKey e = "id-7") /\
    get_entity t' PARTITION_KEY "a" =
      inr (TestWorld.stored "a" "2024-03-01T10:00:00") /\
    List.length t' = 6%nat.
Proof.
  destruct (store_results_then_get_entity TestWorld.red_world
              "id-7" "photo.png" "images/photo.png" "2024-03-07T12:00:00"
              (VDict []) (VDict []) (VDict []) (VDict []) (VDict [])
              TestWorld.five_records eq_refl)
    as [t' [Hs [Hg [Ho Hl]]]].
  exists t'. split; [exact Hs |].
  split; [eexists; split; [exact Hg | reflexivity] |].
  split; [rewrite (Ho "a"); [reflexivity | discriminate] |].
  vm_compute in Hs. injection Hs as <-. reflexivity.
Defined.

(** A successful [store_results] is an upsert of one row, the same row
    whatever the table. *)
Lemma store_results_inv (W : World) (report ack : value) (t t' : Table) :
  store_results W report t = inr (ack, t') ->
  exists e,
    PartitionKey e = PARTITION_KEY /\
    getitem report "id" = inr (VStr (RowKey e)) /\
    t' = upsert_entity e t /\
    forall t2, store_results W report t2 = inr (ack, upsert_entity e t2).
Proof.
  unfold store_results. intros H.
  repeat match type of H with
         | bind ?m _ = inr _ =>
             let E := fresh "E" in
             destruct m eqn:E; [discriminate H | cbn [bind] in H |- *]
         end.
  unfold ret in H. injection H as <- <-.
  refine (ex_intro _ _ (conj _ (conj _ (conj eq_refl _)))).
  - reflexivity.
  - simpl. match goal with
           | Hc : column ?v = inr ?s |- inr ?v = inr (VStr ?s) =>
               destruct v; try discriminate Hc; injection Hc as ->; reflexivity
           end.
  - intros t2. reflexivity.
Qed.

(** X10. Storing is safe to retry: if storing a report succeeded, then
    storing it again into the resulting table succeeds with the same
    acknowledgment and leaves that table unchanged; the first store
    added at most one row. *)
Theorem store_results_retry (W : World) (report ack : value) (t t' : Table) :
  store_results W report t = inr (ack, t') ->
  store_results W report t' = inr (ack, t') /\
  (List.length t <= List.length t' <= List.length t + 1)%nat.
Proof.
  intros H. destruct (store_results_inv W report ack t t' H) as [e [_ [_ [-> Hall]]]].
  split.
  - rewrite Hall, upsert_entity_idempotent. reflexivity.
  - apply upsert_entity_length.
Qed.

Lemma store_results_retry_witness :
  exists ack t',
    store_results TestWorld.red_world empty_report TestWorld.five_records =
      inr (ack, t') /\
    store_results TestWorld.red_world empty_report t' = inr (ack, t') /\
    List.length t' = 6%nat.
Proof.
  eexists. eexists.
  assert (H : store_results TestWorld.red_world empty_report TestWorld.five_records =
              inr (acknowledgment "id-7" "photo.png" "2024-03-07T12:00:00",
                   upsert_entity
                     (stored_entity TestWorld.red_world "id-7" "photo.png"
                        "images/photo.png" "2024-03-07T12:00:00"
                        (VDict []) (VDict []) (VDict []) (VDict []) (VDict []))
                     TestWorld.five_records))
    by reflexivity.
  split; [exact H |].
  destruct (store_results_retry _ _ _ _ _ H) as [Hr _].
  split; [exact Hr | reflexivity].
Defined.

(** X11. Persistence round trip: if [json.loads] undoes [json.dumps] on
    the five documents of a report, then after storing the report the
    query endpoint, asked for the report's id, answers 200 with the
    report's id, fileName, blobPath, analyzedAt, summary and analyses,
    each equal to what was stored. *)
Theorem stored_report_is_served (W : World) (c : ascii) (id f p a : string)
    (colors objects text metadata summary : value) (t : Table)
    (params : list (string * string)) :
  get_table_client W = inr tt ->
  (forall v, In v [summary; colors; objects; text; metadata] ->
             json_loads W (json_dumps W None v) = inr v) ->
  exists t',
    store_results W
      (built_report (String c id) f p a colors objects text metadata summary) t =
      inr (acknowledgment (String c id) f a, t') /\
    get_results W t' {| route_params := [("id", String c id)]; params := params |} =
      {| body := json_dumps W (Some 2)
                   (fetched_report (String c id) f p a colors objects text metadata
                      summary);
         mimetype := "application/json";
         status_code := 200 |}.
Proof.
  intros Hc Hjson.
  set (e := stored_entity W (String c id) f p a colors objects text metadata summary).
  exists (upsert_entity e t).
  split; [rewrite store_results_built, Hc; reflexivity |].
  pose proof (upsert_entity_find e t) as Hf.
  change (find (same_row PARTITION_KEY (String c id)) (upsert_entity e t) = Some e) in Hf.
  unfold get_results, get_results_body. rewrite (bind_inr _ _ _ Hc).
  simpl lookup. unfold get_entity. rewrite Hf. simpl bind.
  unfold result_of_entity, e. simpl.
  rewrite !Hjson by (simpl; tauto). reflexivity.
Qed.

Lemma stored_report_is_served_witness :
  exists t',
    store_results TestWorld.red_world empty_report TestWorld.five_records =
      inr (acknowledgment "id-7" "photo.png" "2024-03-07T12:00:00", t') /\
    status_code (get_results TestWorld.red_world t' (TestWorld.id_request "id-7")) = 200.
Proof.
  destruct (stored_report_is_served TestWorld.red_world "i"%char "d-7" "photo.png"
              "images/photo.png" "2024-03-07T12:00:00"
              (VDict []) (VDict []) (VDict []) (VDict []) (VDict [])
              TestWorld.five_records [] eq_refl)
    as [t' [Hs Hg]].
  - intros v Hv. simpl in Hv.
    repeat (destruct Hv as [<- | Hv]; [reflexivity |]). destruct Hv.
  - exists t'. split; [exact Hs |].
    unfold TestWorld.id_request. rewrite Hg. reflexivity.
Defined.

(** *** The whole job *)

Lemma generate_report_returns (W : World) (u t name : string)
    (colors objects text metadata : list (string * value)) (dom : value) :
  dominant_color (report_data name (VDict colors) (VDict objects) (VDict text)
                    (VDict metadata)) = inr dom ->
  exists f,
    generate_report W u t
      (report_data name (VDict colors) (VDict objects) (VDict text) (VDict metadata)) =
      inr (built_report u f name t (VDict colors) (VDict objects) (VDict text)
             (VDict metadata) (summary_of W colors objects text metadata dom)) /\
    after_last_slash name f.
Proof.
  intros Hdom. destruct (file_name_of_spec name) as [f [Hf Hafter]].
  exists f. split; [| exact Hafter].
  set (rd := report_data name (VDict colors) (VDict objects) (VDict text)
               (VDict metadata)) in *.
  unfold generate_report.
  rewrite (bind_inr _ _ _ (eq_refl : getitem rd "blob_name" = inr (VStr name))).
  rewrite (bind_inr _ _ _ Hf).
  rewrite (bind_inr _ _ _
             (eq_refl : report_analyses rd =
                        inr (VDict [("colors", VDict colors); ("objects", VDict objects);
                                    ("text", VDict text); ("metadata", VDict metadata)]))).
  unfold report_summary. rewrite Hdom.
  change (getitem rd "metadata") with (@inr exn value (VDict metadata)).
  change (getitem rd "objects") with (@inr exn value (VDict objects)).
  change (getitem rd "text") with (@inr exn value (VDict text)).
  change (getitem rd "colors") with (@inr exn value (VDict colors)).
  unfold get, bind, ret, built_report, summary_of.
  destruct (lookup "width" metadata), (lookup "height" metadata),
    (lookup "format" metadata), (lookup "objectCount" objects),
    (lookup "hasText" text), (lookup "isGrayscale" colors); reflexivity.
Qed.

Lemma analysis_task (W : World) (u t : string) (input : value) (tbl : Table) (i : nat) :
  (i < 4)%nat ->
  nth_error (analysis_tasks input) i = Some (analysis_name i, input) /\
  activities W u t (analysis_name i) input tbl =
    (inr (analysis_result W input i), tbl).
Proof.
  intros Hi. do 4 (destruct i as [| i]; [split; reflexivity |]). lia.
Qed.

Lemma complete_analyzers (W : World) (u t : string) (input : value)
    (order : list nat) (tbl : Table) :
  (forall i, In i order -> (i < 4)%nat) ->
  complete (activities W u t) (analysis_tasks input) order tbl =
    (map (fun i => (i, analysis_name i, inr (analysis_result W input i))) order, tbl).
Proof.
  induction order as [| i order IH]; intros Hok; [reflexivity |].
  destruct (analysis_task W u t input tbl i (Hok i (or_introl eq_refl))) as [Hn Ha].
  cbn [complete map]. rewrite Hn, Ha, IH; [reflexivity |].
  intros k Hk. apply Hok. right. exact Hk.
Qed.

Lemma outcome_of_analyzers (W : World) (input : value) (order : list nat) (i : nat) :
  In i order ->
  outcome_of (map (fun i => (i, analysis_name i,
                             @inr exn value (analysis_result W input i))) order) i =
    Some (inr (analysis_result W input i)).
Proof.
  unfold outcome_of. induction order as [| k order IH]; [intros [] |].
  intros Hin. cbn [map find fst]. destruct (Nat.eqb k i) eqn:Hk.
  - apply Nat.eqb_eq in Hk. subst k. reflexivity.
  - apply IH. destruct Hin as [-> | Hin]; [| exact Hin].
    rewrite Nat.eqb_refl in Hk. discriminate Hk.
Qed.

(** The run of the orchestrator over the registered activities, for any
    completion order of the analyzers: everything up to the persistence
    step succeeds, and the outcome is that of [store_results]. *)
Lemma run_registered (W : World) (u t : string) (j : Job) (order : list nat)
    (tbl : Table) :
  Permutation order [0; 1; 2; 3]%nat ->
  exists f colors objects text metadata dom fan,
    let input := client_input j in
    let report :=
      built_report u f (blob_name j) t (VDict colors) (VDict objects) (VDict text)
        (VDict metadata) (summary_of W colors objects text metadata dom) in
    let chain r :=
      fan ++ [Scheduled "generate_report"
                (report_data (blob_name j) (VDict colors) (VDict objects)
                   (VDict text) (VDict metadata));
              Completed "generate_report" (inr report);
              Scheduled "store_results" report;
              Completed "store_results" r] in
    analyze_colors W input = VDict colors /\
    analyze_objects W input = VDict objects /\
    analyze_text input = VDict text /\
    analyze_metadata W input = VDict metadata /\
    after_last_slash (blob_name j) f /\
    run (activities W u t) order (image_analyzer_orchestrator input) tbl =
      match get_table_client W with
      | inl e => (Failed e, chain (inl e), tbl)
      | inr _ =>
          (Succeeded (acknowledgment u f t),
           chain (inr (acknowledgment u f t)),
           upsert_entity
             (stored_entity W u f (blob_name j) t (VDict colors) (VDict objects)
                (VDict text) (VDict metadata)
                (summary_of W colors objects text metadata dom)) tbl)
      end.
Proof.
  intros Hperm. set (input := client_input j).
  destruct (analyze_colors_well_formed W input) as [colors [Hcol Hwf]].
  destruct (analyzers_return_dicts W input)
    as [[objects Hobj] [[text Htxt] [metadata Hmd]]].
  set (rd := report_data (blob_name j) (VDict colors) (VDict objects) (VDict text)
               (VDict metadata)).
  destruct (dominant_color_spec rd colors eq_refl Hwf) as [dom [Hdom _]].
  destruct (generate_report_returns W u t (blob_name j) colors objects text metadata
              dom Hdom) as [f [Hgen Hafter]].
  fold rd in Hgen.
  set (done := map (fun i => (i, analysis_name i,
                              @inr exn value (analysis_result W input i))) order).
  exists f, colors, objects, text, metadata, dom,
    (map (fun task => Scheduled (fst task) (snd task)) (analysis_tasks input)
     ++ map completed done).
  cbv zeta. repeat (split; [assumption |]).
  assert (Hlt : forall i, In i order -> (i < 4)%nat).
  { intros i Hi. apply (Permutation_in _ Hperm) in Hi. simpl in Hi. lia. }
  assert (Hin : forall i, In i [0; 1; 2; 3]%nat -> In i order).
  { intros i Hi. apply (Permutation_in _ (Permutation_sym Hperm)). exact Hi. }
  pose proof (complete_analyzers W u t input order tbl Hlt) as Hc. fold done in Hc.
  assert (Hjoin : join (List.length (analysis_tasks input)) done =
                  Some (inr (VList [VDict colors; VDict objects; VDict text;
                                    VDict metadata]))).
  { unfold join. cbn [List.length analysis_tasks forallb seq map].
    unfold value_of, done.
    rewrite !outcome_of_analyzers by (apply Hin; simpl; tauto).
    fold done. cbn [andb analysis_result].
    replace (first_error done) with (@None exn).
    - rewrite Hcol, Hobj, Htxt, Hmd. reflexivity.
    - symmetry. apply first_error_none. intros i name r Hd.
      unfold done in Hd. apply in_map_iff in Hd. destruct Hd as [k [Hk _]].
      injection Hk as _ _ <-. eexists. reflexivity. }
  unfold image_analyzer_orchestrator. unfold yield_ at 1.
  rewrite (run_task_all _ _ _ _ _ _ _ _ Hc Hjoin). cbv beta iota.
  change (report_input input (VList [VDict colors; VDict objects; VDict text;
                                     VDict metadata]))
    with (@inr exn value rd).
  cbv beta iota. unfold yield_.
  rewrite (run_call_activity _ _ _ _ _ _ _ _
             (eq_refl : activities W u t "generate_report" rd tbl =
                        (generate_report W u t rd, tbl))).
  rewrite Hgen. cbv beta iota.
  set (report := built_report u f (blob_name j) t (VDict colors) (VDict objects)
                   (VDict text) (VDict metadata)
                   (summary_of W colors objects text metadata dom)).
  assert (Hst : activities W u t "store_results" report tbl =
                match get_table_client W with
                | inl e => (inl e, tbl)
                | inr _ =>
                    (inr (acknowledgment u f t),
                     upsert_entity
                       (stored_entity W u f (blob_name j) t (VDict colors)
                          (VDict objects) (VDict text) (VDict metadata)
                          (summary_of W colors objects text metadata dom)) tbl)
                end).
  { change (activities W u t "store_results" report tbl)
      with (match store_results W report tbl with
            | inl e => (@inl exn value e, tbl)
            | inr (record, t') => (inr record, t')
            end).
    unfold report. rewrite store_results_built.
    destruct (get_table_client W); reflexivity. }
  destruct (get_table_client W) as [e | []].
  - rewrite (run_call_activity _ _ _ _ _ _ _ _ Hst). cbn [run].
    rewrite <- !app_assoc. reflexivity.
  - rewrite (run_call_activity _ _ _ _ _ _ _ _ Hst). cbn [run].
    rewrite <- !app_assoc. reflexivity.
Qed.

(** X12. Analyzer failures never fail the job: with the result table
    reachable, for every job, every world (whether or not the blob can
    be fetched or decoded) and every completion order, the orchestration
    over the registered activities succeeds with the acknowledgment
    [{id, fileName, status: "stored", analyzedAt}]; afterwards the table
    holds under the new id a row with the job's blob path, the file name
    and the timestamp, and every other id leads to what it led to
    before. *)
Theorem job_is_persisted (W : World) (u t : string) (j : Job) (order : list nat)
    (tbl : Table) :
  Permutation order [0; 1; 2; 3]%nat ->
  get_table_client W = inr tt ->
  exists f trace tbl' e,
    run (activities W u t) order (image_analyzer_orchestrator (client_input j)) tbl =
      (Succeeded (acknowledgment u f t), trace, tbl') /\
    after_last_slash (blob_name j) f /\
    get_entity tbl' PARTITION_KEY u = inr e /\
    RowKey e = u /\ FileName e = f /\ BlobPath e = blob_name j /\ AnalyzedAt e = t /\
    (forall other, other <> u ->
                   get_entity tbl' PARTITION_KEY other = get_entity tbl PARTITION_KEY other).
Proof.
  intros Hperm Hc.
  destruct (run_registered W u t j order tbl Hperm)
    as [f [colors [objects [text [metadata [dom [fan H]]]]]]].
  cbv zeta in H. destruct H as [_ [_ [_ [_ [Hafter Hrun]]]]].
  rewrite Hc in Hrun.
  set (e := stored_entity W u f (blob_name j) t (VDict colors) (VDict objects)
              (VDict text) (VDict metadata)
              (summary_of W colors objects text metadata dom)) in *.
  eexists f, _, (upsert_entity e tbl), e.
  split; [exact Hrun |]. split; [exact Hafter |].
  pose proof (upsert_entity_find e tbl) as Hf.
  change (find (same_row PARTITION_KEY u) (upsert_entity e tbl) = Some e) in Hf.
  split; [unfold get_entity; rewrite Hf; reflexivity |].
  repeat (split; [reflexivity |]).
  intros other Hne. unfold get_entity.
  rewrite upsert_entity_other; [reflexivity |].
  unfold same_row. simpl. apply String.eqb_neq. congruence.
Qed.

Lemma job_is_persisted_witness :
  exists f trace tbl' e,
    run (activities TestWorld.red_world "id-3" "2024-03-03T03:03:03") [2; 0; 3; 1]%nat
      (image_analyzer_orchestrator (client_input TestWorld.missing_job))
      TestWorld.five_records =
      (Succeeded (acknowledgment "id-3" f "2024-03-03T03:03:03"), trace, tbl') /\
    get_entity tbl' PARTITION_KEY "id-3" = inr e /\
    BlobPath e = "images/missing.png".
Proof.
  destruct (job_is_persisted TestWorld.red_world "id-3" "2024-03-03T03:03:03"
              TestWorld.missing_job [2; 0; 3; 1]%nat TestWorld.five_records
              schedule_2031 eq_refl)
    as [f [trace [tbl' [e [Hrun [_ [Hg [_ [_ [Hb _]]]]]]]]]].
  exists f, trace, tbl', e. repeat split; assumption.
Defined.

(** X13. No partial persistence: when the table client cannot be
    obtained, the job fails with that exception at the persistence step,
    the last event of the run, after the report was built, and the table
    is left as it was. *)
Theorem job_fails_without_table (W : World) (u t : string) (j : Job)
    (order : list nat) (tbl : Table) (e : exn) :
  Permutation order [0; 1; 2; 3]%nat ->
  get_table_client W = inl e ->
  exists report before,
    run (activities W u t) order (image_analyzer_orchestrator (client_input j)) tbl =
      (Failed e,
       before ++ [Completed "generate_report" (inr report);
                  Scheduled "store_results" report;
                  Completed "store_results" (inl e)],
       tbl).
Proof.
  intros Hperm Hc.
  destruct (run_registered W u t j order tbl Hperm)
    as [f [colors [objects [text [metadata [dom [fan H]]]]]]].
  cbv zeta in H. destruct H as [_ [_ [_ [_ [_ Hrun]]]]].
  rewrite Hc in Hrun. rewrite Hrun.
  eexists. eexists (fan ++ [_]). rewrite <- app_assoc. reflexivity.
Qed.

Lemma job_fails_without_table_witness :
  exists trace,
    run (activities table_down_world "id-3" "2024-03-03T03:03:03") [2; 0; 3; 1]%nat
      (image_analyzer_orchestrator (client_input TestWorld.photo_job))
      TestWorld.five_records =
      (Failed (LibraryError "ServiceRequestError" "connection refused"), trace,
       TestWorld.five_records).
Proof.
  destruct (job_fails_without_table table_down_world "id-3" "2024-03-03T03:03:03"
              TestWorld.photo_job [2; 0; 3; 1]%nat TestWorld.five_records
              (LibraryError "ServiceRequestError" "connection refused")
              schedule_2031 eq_refl)
    as [report [before Hrun]].
  eexists. exact Hrun.
Defined.

Lemma sample_pixels_fetch_error (W : World) (inputData : value) (e : exn) :
  open_image W inputData = inl e -> sample_pixels W inputData = inl e.
Proof.
  unfold open_image, sample_pixels.
  destruct (getitem inputData "blob_name") as [e1 | name]; simpl;
    [intros H; injection H as ->; reflexivity |].
  destruct (download_blob_bytes W name) as [e2 | image_bytes]; simpl;
    [intros H; injection H as ->; reflexivity |].
  destruct (Image_open W image_bytes) as [e3 | image]; simpl;
    [intros H; injection H as ->; reflexivity | discriminate].
Qed.



Lemma samples_in_nonneg (pixels : list pixel) (k : pixel) : 0 <= samples_in pixels k.
Proof. unfold samples_in. lia. Qed.

(** X15. For a decoded image (2500 samples) the summary's
    dominantColor is the hex of a bucket that holds the most samples:
    no bucket has more samples than the one it names. *)
Theorem summary_dominant_color (W : World) (u t name : string) (inputData : value)
    (pixels : list pixel) (objects text metadata : list (string * value)) :
  sample_pixels W inputData = inr pixels ->
  List.length pixels = 2500%nat ->
  exists r g b report summary,
    1 <= samples_in pixels (r, g, b) /\
    (forall k, samples_in pixels k <= samples_in pixels (r, g, b)) /\
    generate_report W u t
      (report_data name (analyze_colors W inputData) (VDict objects) (VDict text)
         (VDict metadata)) = inr report /\
    getitem report "summary" = inr summary /\
    getitem summary "dominantColor" =
      inr (VStr ("#" ++ format_02x r ++ format_02x g ++ format_02x b)).
Proof.
  intros Hs Hlen.
  rewrite (analyze_colors_success W inputData pixels Hs Hlen).
  destruct (color_counts_spec pixels) as [Hnodup [Hcount [Hkeys Hsum]]].
  pose proof (sorted_colors_perm pixels) as Hperm.
  pose proof (sorted_desc_sorted Z.ltb snd Zltb_asym Zgeb_trans (color_counts pixels))
    as Hsorted.
  fold (sorted_colors pixels) in Hsorted.
  destruct (sorted_colors pixels) as [| [[[r g] b] count] rest] eqn:Heq.
  { exfalso. apply Permutation_nil in Hperm. rewrite Hperm in Hsum.
    simpl in Hsum. lia. }
  assert (Hin : In ((r, g, b), count) (color_counts pixels)).
  { apply (Permutation_in _ Hperm). left. reflexivity. }
  destruct (Hcount _ _ Hin) as [Hc Hpos].
  apply StronglySorted_inv in Hsorted. destruct Hsorted as [_ Hmax].
  rewrite Forall_forall in Hmax.
  set (colors := [("dominantColors",
                   VList (map dominant_entry (firstn 5 (((r, g, b), count) :: rest))));
                  ("isGrayscale", VBool (2250 <? grayscale_pixels pixels));
                  ("totalPixelsSampled", VInt 2500)]).
  destruct (generate_report_returns W u t name colors objects text metadata
              (VStr ("#" ++ format_02x r ++ format_02x g ++ format_02x b)) eq_refl)
    as [f [Hgen _]].
  exists r, g, b. eexists. eexists.
  split; [rewrite <- Hc; exact Hpos |]. split; [| split; [exact Hgen |]].
  - intros k. rewrite <- Hc.
    destruct (Z_lt_le_dec (samples_in pixels k) 1) as [Hlt | Hge]; [lia |].
    destruct (samples_in_witness pixels k Hge) as [p [Hp Hb]].
    pose proof (Hkeys p Hp) as Hk. rewrite Hb in Hk.
    apply in_map_iff in Hk. destruct Hk as [[k' c] [Hk' Hkc]]. simpl in Hk'. subst k'.
    destruct (Hcount k c Hkc) as [<- _].
    apply (Permutation_in _ (Permutation_sym Hperm)) in Hkc.
    destruct Hkc as [Hkc | Hkc]; [injection Hkc as _ <-; lia |].
    specialize (Hmax _ Hkc). unfold not_below in Hmax. simpl in Hmax.
    apply Z.ltb_ge in Hmax. exact Hmax.
  - split; reflexivity.
Qed.

Lemma summary_dominant_color_witness :
  exists report summary,
    generate_report TestWorld.red_world "id-5" "2024-03-05T05:05:05"
      (report_data "images/photo.png"
         (analyze_colors TestWorld.red_world (client_input TestWorld.photo_job))
         (VDict []) (VDict []) (VDict [])) = inr report /\
    getitem report "summary" = inr summary /\
    getitem summary "dominantColor" = inr (VStr "#e00000").
Proof.
  destruct (summary_dominant_color TestWorld.red_world "id-5" "2024-03-05T05:05:05"
              "images/photo.png" (client_input TestWorld.photo_job)
              (TestWorld.solid (255, 0, 0)) [] [] [] eq_refl eq_refl)
    as [r [g [b [report [summary [_ [_ [Hgen [Hsum _]]]]]]]]].
  exists report, summary. split; [exact Hgen |]. split; [exact Hsum |].
  vm_compute in Hgen. injection Hgen as <-.
  vm_compute in Hsum. injection Hsum as <-. reflexivity.
Defined.

(** X16. The size the trigger computes reaches the metadata result:
    for a blob of [length] bytes the job carries
    [round(length / 1024, 2)] as [blob_size_kb], and for a decoded image
    the Metadata Analyzer returns that number as sizeKB. *)
Theorem trigger_size_reaches_metadata (W : World) (name : string) (length : Z)
    (j : Job) (image : Image W) (w h : Z) (mp : float) :
  blob_trigger name length = inr j ->
  open_image W (client_input j) = inr image ->
  size W image = (w, h) ->
  truediv (w * h) 1000000 = inr mp ->
  exists kb,
    truediv length 1024 = inr kb /\
    client_input j =
      VDict [("blob_name", VStr name); ("blob_size_kb", VFloat (round kb 2))] /\
    getitem (analyze_metadata W (client_input j)) "sizeKB" =
      inr (VFloat (round kb 2)).
Proof.
  intros Hj Ho Hs Hq. unfold blob_trigger in Hj.
  destruct (truediv length 1024) as [e | kb]; simpl in Hj; [discriminate |].
  injection Hj as <-. exists kb. split; [reflexivity |]. split; [reflexivity |].
  unfold analyze_metadata, analyze_metadata_body.
  rewrite (bind_inr _ _ _ Ho), Hs, (bind_inr _ _ _ Hq). reflexivity.
Qed.

Lemma trigger_size_reaches_metadata_witness :
  exists kb,
    truediv 1280 1024 = inr kb /\ round kb 2 = 1.25%float /\
    getitem (analyze_metadata TestWorld.red_world
               (VDict [("blob_name", VStr "images/photo.png");
                       ("blob_size_kb", VFloat (round kb 2))])) "sizeKB" =
      inr (VFloat (round kb 2)).
Proof.
  destruct (trigger_size_reaches_metadata TestWorld.red_world "images/photo.png" 1280
              {| blob_name := "images/photo.png";
                 blob_size_kb := round (float_of_ratio 1280 1024) 2 |}
              TestWorld.red_100x50 100 50 (float_of_ratio 5000 1000000)
              eq_refl eq_refl eq_refl eq_refl)
    as [kb [Hkb [_ Hsz]]].
  exists kb. split; [exact Hkb |].
  vm_compute in Hkb. injection Hkb as <-. split; [reflexivity | exact Hsz].
Defined.

Lemma join_analyzers (W : World) (u t : string) (input : value) (order : list nat)
    (tbl : Table) :
  Permutation order [0; 1; 2; 3]%nat ->
  exists done,
    complete (activities W u t) (analysis_tasks input) order tbl = (done, tbl) /\
    map (fun c => fst (fst c)) done = order /\
    join (List.length (analysis_tasks input)) done =
      Some (inr (VList [analyze_colors W input; analyze_objects W input;
                        analyze_text input; analyze_metadata W input])).
Proof.
  intros Hperm.
  set (done := map (fun i => (i, analysis_name i,
                              @inr exn value (analysis_result W input i))) order).
  exists done. split; [| split].
  - apply complete_analyzers. intros i Hi.
    apply (Permutation_in _ Hperm) in Hi. simpl in Hi. lia.
  - unfold done. rewrite map_map. simpl. apply map_id.
  - assert (Hin : forall i, In i [0; 1; 2; 3]%nat -> In i order).
    { intros i Hi. apply (Permutation_in _ (Permutation_sym Hperm)). exact Hi. }
    unfold join. cbn [List.length analysis_tasks forallb seq map].
    unfold value_of, done.
    rewrite !outcome_of_analyzers by (apply Hin; simpl; tauto).
    fold done. cbn [andb analysis_result].
    replace (first_error done) with (@None exn); [reflexivity |].
    symmetry. apply first_error_none. intros i name r Hd.
    unfold done in Hd. apply in_map_iff in Hd. destruct Hd as [k [Hk _]].
    injection Hk as _ _ <-. eexists. reflexivity.
Qed.

(** X17. A job input without [blob_name]: each fetching analyzer
    catches the [KeyError] and reports it as data, all four activities
    complete, and then the orchestrator itself raises the [KeyError]
    while assembling the report input; the job fails with nothing
    scheduled after the analyzers and the table untouched. *)
Theorem job_without_blob_name (W : World) (u t : string) (d : list (string * value))
    (order : list nat) (tbl : Table) :
  Permutation order [0; 1; 2; 3]%nat ->
  lookup "blob_name" d = None ->
  let e := KeyError "blob_name" in
  analyze_colors W (VDict d) = colors_error e /\
  analyze_objects W (VDict d) = objects_error e /\
  analyze_metadata W (VDict d) = metadata_error e /\
  exists done,
    map (fun c => fst (fst c)) done = order /\
    run (activities W u t) order (image_analyzer_orchestrator (VDict d)) tbl =
      (Failed e,
       map (fun task => Scheduled (fst task) (snd task)) (analysis_tasks (VDict d))
       ++ map completed done,
       tbl).
Proof.
  intros Hperm Hname e.
  assert (Ho : open_image W (VDict d) = inl e).
  { unfold open_image, getitem. rewrite Hname. reflexivity. }
  split; [| split; [| split]].
  - unfold analyze_colors, analyze_colors_body.
    rewrite (sample_pixels_fetch_error W _ e Ho). reflexivity.
  - unfold analyze_objects, analyze_objects_body. rewrite Ho. reflexivity.
  - unfold analyze_metadata, analyze_metadata_body. rewrite Ho. reflexivity.
  - destruct (join_analyzers W u t (VDict d) order tbl Hperm) as [done [Hc [Hm Hj]]].
    exists done. split; [exact Hm |].
    + unfold image_analyzer_orchestrator. unfold yield_ at 1.
      rewrite (run_task_all _ _ _ _ _ _ _ _ Hc Hj). cbv beta iota.
      unfold report_input, getitem. rewrite Hname. cbn [bind raise run].
      rewrite app_nil_r. reflexivity.
Qed.

Lemma job_without_blob_name_witness :
  exists trace,
    run (activities TestWorld.red_world "id-6" "2024-03-06T06:06:06") [2; 0; 3; 1]%nat
      (image_analyzer_orchestrator (VDict [("blob_size_kb", VFloat 1.25)]))
      TestWorld.five_records =
      (Failed (KeyError "blob_name"), trace, TestWorld.five_records) /\
    List.length trace = 8%nat.
Proof.
  destruct (job_without_blob_name TestWorld.red_world "id-6" "2024-03-06T06:06:06"
              [("blob_size_kb", VFloat 1.25)] [2; 0; 3; 1]%nat TestWorld.five_records
              schedule_2031 eq_refl)
    as [_ [_ [_ [done [Hm Hrun]]]]].
  eexists. split; [exact Hrun |].
  rewrite length_app, !length_map, <- (length_map (fun c => fst (fst c)) done), Hm.
  reflexivity.
Defined.

Lemma tenths_monotone (a b : Z) : a <= b -> tenths a <= tenths b.
Proof.
  intros Hab. unfold tenths, round_half_even.
  pose proof (Z.div_mod (2 * a) 5 ltac:(lia)).
  pose proof (Z.div_mod (2 * b) 5 ltac:(lia)).
  pose proof (Z.mod_pos_bound (2 * a) 5 ltac:(lia)).
  pose proof (Z.mod_pos_bound (2 * b) 5 ltac:(lia)).
  destruct (Z.compare_spec (2 * ((2 * a) mod 5)) 5);
    destruct (Z.compare_spec (2 * ((2 * b) mod 5)) 5);
    try destruct (Z.even (2 * a / 5)); try destruct (Z.even (2 * b / 5)); lia.
Qed.

(** X18. For a decoded image (2500 samples) the percentages of
    dominantColors never increase along the list: rounding to one
    decimal keeps the descending order of the counts, so an earlier
    entry's percentage, in tenths, is at least that of a later one. *)
Theorem percentages_descending (W : World) (inputData : value) (pixels : list pixel) :
  sample_pixels W inputData = inr pixels ->
  List.length pixels = 2500%nat ->
  exists top,
    getitem (analyze_colors W inputData) "dominantColors" =
      inr (VList (map (fun kc => entry_of kc (float_of_ratio (tenths (snd kc)) 10)) top)) /\
    StronglySorted (fun a b => tenths (snd b) <= tenths (snd a)) top.
Proof.
  intros Hs Hlen. exists (firstn 5 (sorted_colors pixels)).
  rewrite (analyze_colors_success W inputData pixels Hs Hlen).
  split; [reflexivity |].
  apply StronglySorted_firstn.
  apply (StronglySorted_weaken (not_below Z.ltb snd)).
  - intros a b H. apply tenths_monotone. apply Z.ltb_ge. exact H.
  - apply sorted_desc_sorted; [exact Zltb_asym | exact Zgeb_trans].
Qed.

Lemma percentages_descending_witness :
  percentages (analyze_colors (TestWorld.grid_world TestWorld.uneven_pixels)
                 (client_input TestWorld.photo_job)) =
    [20.2; 20.0; 20.0; 20.0; 20.0]%float /\
  exists top,
    getitem (analyze_colors (TestWorld.grid_world TestWorld.uneven_pixels)
               (client_input TestWorld.photo_job)) "dominantColors" =
      inr (VList (map (fun kc => entry_of kc (float_of_ratio (tenths (snd kc)) 10)) top)) /\
    StronglySorted (fun a b => tenths (snd b) <= tenths (snd a)) top.
Proof.
  split; [vm_compute; reflexivity |].
  exact (percentages_descending (TestWorld.grid_world TestWorld.uneven_pixels)
           (client_input TestWorld.photo_job) TestWorld.uneven_pixels eq_refl eq_refl).
Defined.
